(** * matrix-wechat-agent: the process supervisor of [scripts/run.py]

    [scripts/run.py] starts a VNC display server and, under it, the agent
    (a Windows executable run through wine), waits for the agent, and on
    SIGINT / SIGHUP / SIGTERM signals both children and removes the X lock
    files.

    The script is a sequence of calls into the operating system.  It is
    embedded here as a program in a small monad that threads the state of
    the [AgentManager] object and of the operating system, records every
    attempted call, and distinguishes three ways a call can end: it
    returns, it raises a Python exception, or it blocks for ever. *)

From Stdlib Require Import ZArith List.
From stdpp Require Import base option list strings gmap.

Local Open Scope string_scope.
Local Open Scope list_scope.
Local Open Scope Z_scope.

(** ** Python values *)

Abbreviation bytes := (list Byte.byte).

(** The value of an environment variable is held as the byte string the
    process environment holds: the characters of a Rocq string are these
    bytes.  Python decodes them as UTF-8 with [surrogateescape], so that
    the [str] it hands out encodes back to the same bytes when they are
    valid UTF-8, and cannot be encoded at all otherwise. *)
Definition raw_bytes (s : string) : bytes := String.list_byte_of_string s.

Definition byte_code (b : Byte.byte) : Z := Z.of_N (Byte.to_N b).

Definition between (lo hi : Z) (b : Byte.byte) : bool :=
  (lo <=? byte_code b) && (byte_code b <=? hi).

(** A continuation byte, 0x80 to 0xBF. *)
Definition continuation (b : Byte.byte) : bool := between 128 191 b.

(** The byte strings the strict UTF-8 decoder and encoder of Python
    accept: shortest forms only, no surrogates, nothing above U+10FFFF. *)
Fixpoint utf8_valid (l : bytes) : bool :=
  match l with
  | [] => true
  | b0 :: l1 =>
      if between 0 127 b0 then utf8_valid l1
      else
        match l1 with
        | [] => false
        | b1 :: l2 =>
            if between 194 223 b0 then continuation b1 && utf8_valid l2
            else
              match l2 with
              | [] => false
              | b2 :: l3 =>
                  if between 224 224 b0
                  then between 160 191 b1 && continuation b2 && utf8_valid l3
                  else if between 225 236 b0 || between 238 239 b0
                  then continuation b1 && continuation b2 && utf8_valid l3
                  else if between 237 237 b0
                  then between 128 159 b1 && continuation b2 && utf8_valid l3
                  else
                    match l3 with
                    | [] => false
                    | b3 :: l4 =>
                        if between 240 240 b0
                        then between 144 191 b1 && continuation b2 && continuation b3
                             && utf8_valid l4
                        else if between 241 243 b0
                        then continuation b1 && continuation b2 && continuation b3
                             && utf8_valid l4
                        else if between 244 244 b0
                        then between 128 143 b1 && continuation b2 && continuation b3
                             && utf8_valid l4
                        else false
                    end
              end
        end
  end.

(** An octal literal, most significant digit first: [oct [7;0;0]] is 0o700. *)
Definition oct (digits : list Z) : Z :=
  fold_left (fun acc d => acc * 8 + d) digits 0.

(** [errno] values, as the operating system reports them. *)
Definition ENOENT : Z := 2.
Definition ESRCH : Z := 3.
Definition EBADF : Z := 9.
Definition EACCES : Z := 13.
Definition EEXIST : Z := 17.
Definition EISDIR : Z := 21.

(** The exception classes the script can meet.  [UnicodeEncodeError] is
    raised by [str.encode].  [OSError errno] stands for
    [OSError] and its subclasses, which Python chooses by [errno]:
    [FileNotFoundError] for [ENOENT], [ProcessLookupError] for [ESRCH],
    [FileExistsError] for [EEXIST], [IsADirectoryError] for [EISDIR],
    [PermissionError] for [EACCES].  [KeyboardInterrupt] and [SystemExit]
    derive from [BaseException] only. *)
Inductive exn : Type :=
| AttributeError (attr : string)
| KeyError (key : string)
| TypeError
| UnicodeEncodeError
| OSError (errno : Z)
| KeyboardInterrupt
| SystemExit.

Definition FileNotFoundError : exn := OSError ENOENT.
Definition ProcessLookupError : exn := OSError ESRCH.
Definition FileExistsError : exn := OSError EEXIST.
Definition IsADirectoryError : exn := OSError EISDIR.
Definition PermissionError : exn := OSError EACCES.

(** [isinstance(e, Exception)]: what [except Exception] catches. *)
Definition is_Exception (e : exn) : bool :=
  match e with
  | KeyboardInterrupt | SystemExit => false
  | _ => true
  end.

(** [signal.SIGHUP], [signal.SIGINT], [signal.SIGTERM]. *)
Definition SIGHUP : Z := 1.
Definition SIGINT : Z := 2.
Definition SIGTERM : Z := 15.

(** The frame object a signal handler receives: where the main flow was
    interrupted. *)
Record Frame : Type := { f_lineno : Z }.

(** The attributes of a [subprocess.Popen] object that the script reads. *)
Record Popen : Type := { pid : Z; args : list string }.

(** A [Popen] object defines neither [__bool__] nor [__len__]: it is true. *)
Definition truthy (p : Popen) : bool := true.

(** The attributes of a [subprocess.CompletedProcess]; [stdout] is [None]
    unless the output was captured. *)
Record CompletedProcess : Type :=
  { cp_args : list string; cp_returncode : Z; cp_stdout : option bytes }.

(** The instance attributes of [AgentManager].  [__init__] assigns neither
    of them: [None] is an attribute that does not exist yet, and reading
    it raises [AttributeError]. *)
Record AgentManager : Type :=
  { agent : option Popen; vnc : option Popen }.

(** ** The operating system *)

Inductive level : Type := INFO | ERROR.

(** The calls the script attempts, with their arguments. *)
Inductive event : Type :=
| Log (lv : level) (msg : string) (exc_info : option exn)
| Signal (signum : Z)
| Kill (target : Z) (signum : Z)
| Run (argv : list string) (input : option bytes) (capture_output : bool)
| Spawn (argv : list string)
| Wait (child : Z)
| Makedirs (path : string) (mode : Z) (exist_ok : bool)
| Open (path : string)
| Fwrite (path : string) (data : bytes)
| Chmod (path : string) (mode : Z).

Inductive node : Type :=
| Dir (mode : Z)
| File (mode : Z) (content : bytes).

(** What a signal number is bound to: [Bound_stop] is the bound method
    [self.stop]. *)
Inductive handler : Type := Bound_stop.

(** The state of the machine and its answers to the calls.  [fault] tells
    whether the operating system refuses a call, and with which [errno]:
    the call then raises the [OSError] of that [errno]; [child_pid] is
    the process id given to a child spawned from an argument list;
    [child_result] is the return code and the standard
    output of a command run to completion on a given standard input;
    [exit_status] is the status with which a child terminates, [None] for
    a child that never does.  Commands started with [subprocess.run] are
    taken to terminate; their own effect on the file system is not
    modelled. *)
Record World : Type :=
  { environ : gmap string string;
    umask : Z;
    fs : gmap string node;
    handlers : gmap Z handler;
    fault : event -> option Z;
    child_pid : list string -> Z;
    child_result : list string -> option bytes -> Z * bytes;
    exit_status : Z -> option Z }.

Record State : Type := { manager : AgentManager; world : World }.

Definition set_fs (f : gmap string node -> gmap string node) (s : State) : State :=
  {| manager := manager s;
     world := {| environ := environ (world s); umask := umask (world s);
                 fs := f (fs (world s)); handlers := handlers (world s);
                 fault := fault (world s); child_pid := child_pid (world s);
                 child_result := child_result (world s);
                 exit_status := exit_status (world s) |} |}.

Definition set_handlers (f : gmap Z handler -> gmap Z handler) (s : State) : State :=
  {| manager := manager s;
     world := {| environ := environ (world s); umask := umask (world s);
                 fs := fs (world s); handlers := f (handlers (world s));
                 fault := fault (world s); child_pid := child_pid (world s);
                 child_result := child_result (world s);
                 exit_status := exit_status (world s) |} |}.

Definition set_agent (p : Popen) (s : State) : State :=
  {| manager := {| agent := Some p; vnc := vnc (manager s) |}; world := world s |}.

Definition set_vnc (p : Popen) (s : State) : State :=
  {| manager := {| agent := agent (manager s); vnc := Some p |}; world := world s |}.

(** ** The monad of the script *)

Inductive outcome (A : Type) : Type :=
| Returned (a : A)
| Raised (e : exn)
| Blocked.
Arguments Returned {A} a.
Arguments Raised {A} e.
Arguments Blocked {A}.

(** A computation maps a state to its outcome, the state it leaves, and
    the calls it attempted, in the order it attempted them. *)
Definition M (A : Type) : Type := State -> outcome A * State * list event.

Definition result {A} (x : outcome A * State * list event) : outcome A := x.1.1.
Definition final {A} (x : outcome A * State * list event) : State := x.1.2.
Definition events {A} (x : outcome A * State * list event) : list event := x.2.

#[global] Instance M_ret : MRet M := fun A a s => (Returned a, s, []).

#[global] Instance M_bind : MBind M := fun A B k m s =>
  match m s with
  | (Returned a, s1, t1) =>
      match k a s1 with (r, s2, t2) => (r, s2, t1 ++ t2) end
  | (Raised e, s1, t1) => (Raised e, s1, t1)
  | (Blocked, s1, t1) => (Blocked, s1, t1)
  end.

Definition raise {A} (e : exn) : M A := fun s => (Raised e, s, []).
Definition block {A} : M A := fun s => (Blocked, s, []).
Definition get : M State := fun s => (Returned s, s, []).
Definition modify (f : State -> State) : M unit := fun s => (Returned tt, f s, []).
Definition emit (ev : event) : M unit := fun s => (Returned tt, s, [ev]).

(** [try: body / except Exception as e: handle e]. *)
Definition try_except (body : M unit) (handle : exn -> M unit) : M unit := fun s =>
  match body s with
  | (Raised e, s1, t1) =>
      if is_Exception e
      then match handle e s1 with (r, s2, t2) => (r, s2, t1 ++ t2) end
      else (Raised e, s1, t1)
  | x => x
  end.

(** A call that the operating system may refuse. *)
Definition syscall (ev : event) : M unit :=
  emit ev;;
  s ← get;
  match fault (world s) ev with
  | Some errno => raise (OSError errno)
  | None => mret tt
  end.

(** ** The library calls of the script *)

(** [logger.info(msg)] and [logger.error(msg, exc_info=e)]. *)
Definition logger_info (msg : string) : M unit := emit (Log INFO msg None).
Definition logger_error (msg : string) (e : exn) : M unit := emit (Log ERROR msg (Some e)).

(** [self.agent] and [self.vnc]. *)
Definition getattr_agent : M Popen :=
  s ← get;
  match agent (manager s) with
  | Some p => mret p
  | None => raise (AttributeError "agent")
  end.

Definition getattr_vnc : M Popen :=
  s ← get;
  match vnc (manager s) with
  | Some p => mret p
  | None => raise (AttributeError "vnc")
  end.

(** [signal.signal(signum, self.stop)]. *)
Definition signal_signal (signum : Z) (h : handler) : M unit :=
  emit (Signal signum);;
  modify (set_handlers <[signum := h]>).

(** [os.kill(pid, sig)]. *)
Definition os_kill (target signum : Z) : M unit := syscall (Kill target signum).

(** [os.environ[key]]. *)
Definition environ_getitem (key : string) : M string :=
  s ← get;
  match environ (world s) !! key with
  | Some v => mret v
  | None => raise (KeyError key)
  end.

(** [s.encode()], for a [str] read from [os.environ]: its bytes, or
    [UnicodeEncodeError] when they are not valid UTF-8. *)
Definition encode (s : string) : M bytes :=
  if utf8_valid (raw_bytes s) then mret (raw_bytes s) else raise UnicodeEncodeError.

(** [subprocess.run(argv, input=..., capture_output=...)], without
    [check]: the return code is stored in the result and nothing else. *)
Definition subprocess_run (argv : list string) (input : option bytes)
    (capture_output : bool) : M CompletedProcess :=
  syscall (Run argv input capture_output);;
  s ← get;
  let '(code, out) := child_result (world s) argv input in
  mret {| cp_args := argv; cp_returncode := code;
          cp_stdout := if capture_output then Some out else None |}.

(** [subprocess.Popen(argv)]. *)
Definition subprocess_Popen (argv : list string) : M Popen :=
  syscall (Spawn argv);;
  s ← get;
  mret {| pid := child_pid (world s) argv; args := argv |}.

(** [p.wait()], without timeout: the exit status of the child once it has
    terminated. *)
Definition Popen_wait (p : Popen) : M Z :=
  emit (Wait (pid p));;
  s ← get;
  match exit_status (world s) (pid p) with
  | Some status => mret status
  | None => block
  end.

(** The permission bits a new directory gets from [mkdir(path, mode)]. *)
Definition mkdir_mode (mode mask : Z) : Z :=
  Z.land (Z.land mode (Z.lnot mask)) (oct [1; 7; 7; 7]).

(** [os.makedirs(path, mode, exist_ok)], for a path whose parent exists.
    When the path is a directory already, [exist_ok] decides; nothing the
    operating system answers to the attempt makes the call fail then. *)
Definition os_makedirs (path : string) (mode : Z) (exist_ok : bool) : M unit :=
  s ← get;
  match fs (world s) !! path with
  | Some (Dir _) =>
      emit (Makedirs path mode exist_ok);;
      if exist_ok then mret tt else raise FileExistsError
  | Some (File _ _) =>
      emit (Makedirs path mode exist_ok);;
      raise FileExistsError
  | None =>
      syscall (Makedirs path mode exist_ok);;
      modify (set_fs <[path := Dir (mkdir_mode mode (umask (world s)))]>)
  end.

(** [open(path, 'wb')]: the file is created with mode 0o666 less the
    umask, or truncated with its mode kept. *)
Definition open_wb (path : string) : M unit :=
  s ← get;
  match fs (world s) !! path with
  | Some (Dir _) => emit (Open path);; raise IsADirectoryError
  | Some (File md _) =>
      syscall (Open path);;
      modify (set_fs <[path := File md []]>)
  | None =>
      syscall (Open path);;
      modify (set_fs <[path := File (Z.land (oct [6; 6; 6]) (Z.lnot (umask (world s)))) []]>)
  end.

(** [f.write(data)] on the file opened at [path], flushed when the [with]
    block closes it; writing [None] is a [TypeError]. *)
Definition file_write (path : string) (data : option bytes) : M unit :=
  match data with
  | None => raise TypeError
  | Some d =>
      syscall (Fwrite path d);;
      s ← get;
      match fs (world s) !! path with
      | Some (File md c) => modify (set_fs <[path := File md (c ++ d)]>)
      | _ => raise (OSError EBADF)
      end
  end.

(** [os.chmod(path, mode)]. *)
Definition os_chmod (path : string) (mode : Z) : M unit :=
  s ← get;
  match fs (world s) !! path with
  | None => emit (Chmod path mode);; raise FileNotFoundError
  | Some n =>
      syscall (Chmod path mode);;
      modify (set_fs <[path := match n with
                               | Dir _ => Dir mode
                               | File _ c => File mode c
                               end]>)
  end.

(** ** The script: class [AgentManager] *)

(** The paths and argument lists the script names. *)
Definition vnc_dir : string := "/home/user/.vnc".
Definition vnc_passwd : string := "/home/user/.vnc/passwd".
Definition rm_lock : list string := ["sudo"; "rm"; "-f"; "/tmp/.X5-lock"].
Definition rm_socket : list string := ["sudo"; "rm"; "-f"; "/tmp/.X11-unix/X5"].
Definition vncpasswd_argv : list string := ["/usr/bin/vncpasswd"; "-f"].
Definition vncserver_argv : list string :=
  ["/usr/bin/vncserver"; "-localhost"; "no"; "-xstartup"; "/usr/bin/openbox"; ":5"].
Definition agent_argv : list string :=
  ["wine"; "cmd"; "/k"; "/home/user/matrix-wechat-agent/matrix-wechat-agent.exe"].

(** [AgentManager.__init__]. *)
Definition __init__ : M unit :=
  signal_signal SIGINT Bound_stop;;
  signal_signal SIGHUP Bound_stop;;
  signal_signal SIGTERM Bound_stop.

(** [AgentManager.stop]. *)
Definition stop (signum : Z) (frame : Frame) : M unit :=
  logger_info "Stop agent...";;
  try_except
    (a ← getattr_agent;
     if truthy a
     then a' ← getattr_agent; os_kill (pid a') SIGTERM
     else mret tt)
    (fun e => logger_error "Error at stop agent" e);;
  logger_info "Stop vnc...";;
  try_except
    (v ← getattr_vnc;
     if truthy v
     then v' ← getattr_vnc; os_kill (pid v') SIGTERM
     else mret tt)
    (fun e => logger_error "Error at stop vnc" e);;
  try_except
    (subprocess_run rm_lock None false;;
     subprocess_run rm_socket None false;;
     mret tt)
    (fun e => logger_error "Error at cleanup X" e).

(** [AgentManager.start_vnc]. *)
Definition start_vnc : M unit :=
  logger_info "Start vnc...";;
  os_makedirs vnc_dir 755 true;;
  password ← environ_getitem "VNCPASS";
  input ← encode password;
  passwd_output ← subprocess_run vncpasswd_argv (Some input) true;
  open_wb vnc_passwd;;
  file_write vnc_passwd (cp_stdout passwd_output);;
  os_chmod vnc_passwd (oct [7; 0; 0]);;
  p ← subprocess_Popen vncserver_argv;
  modify (set_vnc p).

(** [AgentManager.start_agent]. *)
Definition start_agent : M unit :=
  logger_info "Start agent...";;
  p ← subprocess_Popen agent_argv;
  modify (set_agent p);;
  a ← getattr_agent;
  Popen_wait a;;
  mret tt.

(** [AgentManager.start]. *)
Definition start : M unit :=
  start_vnc;;
  start_agent.

(** The body of [if __name__ == '__main__']: a fresh manager, whose two
    attributes do not exist yet, is initialised and started. *)
Definition fresh : AgentManager := {| agent := None; vnc := None |}.

Definition main : M unit :=
  logger_info "Start agent manager...";;
  modify (fun s => {| manager := fresh; world := world s |});;
  __init__;;
  start.

(** Delivery of a signal to the process: the handler bound to the signal
    number runs; [None] when no Python handler is bound to it. *)
Definition deliver (signum : Z) (frame : Frame) (s : State)
    : option (outcome unit * State * list event) :=
  match handlers (world s) !! signum with
  | Some Bound_stop => Some (stop signum frame s)
  | None => None
  end.

(** ** Observations on a run *)

Definition is_log (ev : event) : bool :=
  match ev with Log _ _ _ => true | _ => false end.

Definition is_kill (ev : event) : bool :=
  match ev with Kill _ _ => true | _ => false end.

Definition is_run (ev : event) : bool :=
  match ev with Run _ _ _ => true | _ => false end.

Definition is_spawn (ev : event) : bool :=
  match ev with Spawn _ => true | _ => false end.

(** A call that starts a process. *)
Definition is_launch (ev : event) : bool := is_run ev || is_spawn ev.

(** The calls into the operating system among the events of a run: all but
    the log lines. *)
Definition attempts (t : list event) : list event :=
  List.filter (fun ev => negb (is_log ev)) t.

Definition permits (w : World) (ev : event) : bool :=
  match fault w ev with None => true | Some _ => false end.

Definition is_dir (n : option node) : bool :=
  match n with Some (Dir _) => true | _ => false end.

Definition is_file (n : option node) : bool :=
  match n with Some (File _ _) => true | _ => false end.

(** One termination signal for each handle that is set, the agent first. *)
Definition kill_attempts (m : AgentManager) : list event :=
  match agent m with Some a => [Kill (pid a) SIGTERM] | None => [] end ++
  match vnc m with Some v => [Kill (pid v) SIGTERM] | None => [] end.

Definition handles_set (m : AgentManager) : nat :=
  (match agent m with Some _ => 1 | None => 0 end +
   match vnc m with Some _ => 1 | None => 0 end)%nat.

(** The two removals of the cleanup, the lock file first. *)
Definition removals : list event :=
  [Run rm_lock None false; Run rm_socket None false].

(** The sequence of attempts the specification gives for a shutdown. *)
Definition shutdown_sequence (m : AgentManager) : list event :=
  kill_attempts m ++ removals.

(** The sequence of attempts of a start on which every call succeeds, for
    a password [password]. *)
Definition start_vnc_sequence (w : World) (password : string) : list event :=
  [ Makedirs vnc_dir 755 true;
    Run vncpasswd_argv (Some (raw_bytes password)) true;
    Open vnc_passwd;
    Fwrite vnc_passwd (child_result w vncpasswd_argv (Some (raw_bytes password))).2;
    Chmod vnc_passwd (oct [7; 0; 0]);
    Spawn vncserver_argv ].

Definition start_sequence (w : World) (password : string) : list event :=
  start_vnc_sequence w password ++
  [ Spawn agent_argv; Wait (child_pid w agent_argv) ].

(** The same world, in which every command exits with [code]. *)
Definition exiting_with (code : Z) (s : State) : State :=
  {| manager := manager s;
     world := {| environ := environ (world s); umask := umask (world s);
                 fs := fs (world s); handlers := handlers (world s);
                 fault := fault (world s); child_pid := child_pid (world s);
                 child_result := fun argv input => (code, (child_result (world s) argv input).2);
                 exit_status := exit_status (world s) |} |}.

(** A computation that always returns, and leaves the manager and the
    machine as it found them. *)
Definition passive (m : M unit) : Prop :=
  forall s, m s = (Returned tt, s, events (m s)).

(** A computation that leaves the state as it found it and, when it does
    not return, raises an instance of [Exception]. *)
Definition harmless {A} (m : M A) : Prop :=
  forall s, final (m s) = s /\
    match result (m s) with
    | Returned _ => True
    | Raised e => is_Exception e = true
    | Blocked => False
    end.

(** ** Sample machines *)

(** A machine that refuses nothing: the display server gets process id
    100 and every other child 101, every command exits with [code] and
    prints [out], and children terminate with [status]. *)
Definition machine (env : gmap string string) (files : gmap string node)
    (refuse : event -> option Z) (code : Z) (out : bytes) (status : option Z) : World :=
  {| environ := env; umask := oct [0; 2; 2]; fs := files; handlers := ∅;
     fault := refuse;
     child_pid := fun argv => if decide (argv = vncserver_argv) then 100 else 101;
     child_result := fun _ _ => (code, out);
     exit_status := fun _ => status |}.

Definition willing : event -> option Z := fun _ => None.

(** [sudo] is not installed: starting it fails with [ENOENT]. *)
Definition no_sudo : event -> option Z := fun ev =>
  match ev with
  | Run ("sudo" :: _) _ _ => Some ENOENT
  | _ => None
  end.

(** Neither child is alive any more, and [sudo] is not installed. *)
Definition all_gone : event -> option Z := fun ev =>
  match ev with
  | Kill _ _ => Some ESRCH
  | Run ("sudo" :: _) _ _ => Some ENOENT
  | _ => None
  end.

(** Neither child is alive any more. *)
Definition gone : event -> option Z := fun ev =>
  match ev with
  | Kill _ _ => Some ESRCH
  | _ => None
  end.

(** No directory can be created. *)
Definition read_only : event -> option Z := fun ev =>
  match ev with
  | Makedirs _ _ _ => Some EACCES
  | _ => None
  end.

Definition display : Popen := {| pid := 100; args := vncserver_argv |}.
Definition wechat : Popen := {| pid := 101; args := agent_argv |}.

(** Both children running. *)
Definition running (refuse : event -> option Z) : State :=
  {| manager := {| agent := Some wechat; vnc := Some display |};
     world := machine {["VNCPASS" := "secret"]} ∅ refuse 0 [] None |}.

(** The display server running, the agent not yet assigned. *)
Definition display_only (refuse : event -> option Z) : State :=
  {| manager := {| agent := None; vnc := Some display |};
     world := machine {["VNCPASS" := "secret"]} ∅ refuse 0 [] None |}.

(** The display server has died, the agent is not yet assigned, and the
    removal commands exit with status 1. *)
Definition stale : State :=
  {| manager := {| agent := None; vnc := Some display |};
     world := machine {["VNCPASS" := "secret"]} ∅ gone 1 [] None |}.

(** A manager about to start, on a machine with or without a password. *)
Definition booting (env : gmap string string) (files : gmap string node)
    (refuse : event -> option Z) (code : Z) (out : bytes) (status : option Z) : State :=
  {| manager := fresh; world := machine env files refuse code out status |}.

Definition frame0 : Frame := {| f_lineno := 53 |}.

(** A first start: the password is set, nothing exists yet, the agent
    exits with status 0. *)
Definition first_boot : State :=
  booting {["VNCPASS" := "secret"]} ∅ willing 0 [Byte.x2a] (Some 0).

(** A later start: the directory exists already, and the machine would
    refuse to create one. *)
Definition second_boot : State :=
  booting {["VNCPASS" := "secret"]} {[vnc_dir := Dir (oct [7; 5; 5])]}
    read_only 0 [Byte.x2a] None.

(** [vncpasswd] exits with status 1 and prints nothing. *)
Definition failed_hash : State :=
  booting {["VNCPASS" := "secret"]} ∅ willing 1 [] None.

(** VNCPASS is not in the environment. *)
Definition no_password : State := booting ∅ ∅ willing 0 [] (Some 0).

(** ** Further observations *)

Definition is_error (ev : event) : bool :=
  match ev with Log ERROR _ _ => true | _ => false end.

Definition is_signal (ev : event) : bool :=
  match ev with Signal _ => true | _ => false end.

Definition is_wait (ev : event) : bool :=
  match ev with Wait _ => true | _ => false end.

(** A call that tears the children or their lock files down: a signal to
    a process, or one of the two removal commands. *)
Definition is_teardown (ev : event) : bool :=
  match ev with
  | Kill _ _ => true
  | Run argv _ _ => bool_decide (argv = rm_lock) || bool_decide (argv = rm_socket)
  | _ => false
  end.

(** The error line of a guarded [os.kill]: the handle does not exist, or
    the machine refuses the signal. *)
Definition kill_errors (msg attr : string) (h : option Popen) (w : World) : list event :=
  match h with
  | None => [Log ERROR msg (Some (AttributeError attr))]
  | Some p =>
      match fault w (Kill (pid p) SIGTERM) with
      | Some errno => [Log ERROR msg (Some (OSError errno))]
      | None => []
      end
  end.

(** The error line of the cleanup: the first removal that cannot be
    started. *)
Definition cleanup_errors (w : World) : list event :=
  match fault w (Run rm_lock None false) with
  | Some errno => [Log ERROR "Error at cleanup X" (Some (OSError errno))]
  | None =>
      match fault w (Run rm_socket None false) with
      | Some errno => [Log ERROR "Error at cleanup X" (Some (OSError errno))]
      | None => []
      end
  end.

(** The events of a start on which every call succeeds, log lines
    included. *)
Definition start_events (w : World) (password : string) : list event :=
  Log INFO "Start vnc..." None :: start_vnc_sequence w password ++
  [ Log INFO "Start agent..." None; Spawn agent_argv; Wait (child_pid w agent_argv) ].

(** The password [start] works with: the value of VNCPASS, if any. *)
Definition vncpass (w : World) : string := default "" (environ w !! "VNCPASS").

(** The state in which [main] calls [start]: a fresh manager, and the
    three signals bound. *)
Definition initialised (s : State) : State :=
  set_handlers (fun h => <[SIGTERM := Bound_stop]> (<[SIGHUP := Bound_stop]> (<[SIGINT := Bound_stop]> h)))
    {| manager := fresh; world := world s |}.

(** The handles after a start that spawned both children. *)
Definition both_started (w : World) : AgentManager :=
  {| agent := Some {| pid := child_pid w agent_argv; args := agent_argv |};
     vnc := Some {| pid := child_pid w vncserver_argv; args := vncserver_argv |} |}.

(** [chmod] is refused. *)
Definition no_chmod : event -> option Z := fun ev =>
  match ev with
  | Chmod _ _ => Some EACCES
  | _ => None
  end.

(** [wine] is not installed. *)
Definition no_wine : event -> option Z := fun ev =>
  match ev with
  | Spawn ("wine" :: _) => Some ENOENT
  | _ => None
  end.

(** [vncserver] is not installed. *)
Definition no_vncserver : event -> option Z := fun ev =>
  match ev with
  | Spawn ("/usr/bin/vncserver" :: _) => Some ENOENT
  | _ => None
  end.

(** [vncpasswd] exits with status 1 and prints nothing, and [vncserver]
    is not installed. *)
Definition failed_hash_no_server : State :=
  booting {["VNCPASS" := "secret"]} ∅ no_vncserver 1 [] None.

(** A start on a machine that refuses [chmod]. *)
Definition chmod_refused : State :=
  booting {["VNCPASS" := "secret"]} ∅ no_chmod 0 [Byte.x2a] (Some 0).

(** A start on a machine without [wine]. *)
Definition wine_missing : State :=
  booting {["VNCPASS" := "secret"]} ∅ no_wine 0 [Byte.x2a] (Some 0).

(** VNCPASS holds the single byte 0xff, which is not UTF-8. *)
Definition undecodable : State :=
  booting {["VNCPASS" := String.string_of_list_byte [Byte.xff]]} ∅ willing 0 [Byte.x2a] (Some 0).

(** A start whose agent never exits. *)
Definition long_running : State :=
  booting {["VNCPASS" := "secret"]} ∅ willing 0 [Byte.x2a] None.

(** * Properties *)

(** ** Running a computation *)

Lemma bind_run {A B} (m : M A) (k : A -> M B) (s : State) :
  (m ≫= k) s =
    match m s with
    | (Returned a, s1, t1) =>
        match k a s1 with (r, s2, t2) => (r, s2, t1 ++ t2) end
    | (Raised e, s1, t1) => (Raised e, s1, t1)
    | (Blocked, s1, t1) => (Blocked, s1, t1)
    end.
Proof. reflexivity. Qed.

Lemma bind_returned {A B} (m : M A) (k : A -> M B) s a s1 t1 :
  m s = (Returned a, s1, t1) ->
  (m ≫= k) s = (result (k a s1), final (k a s1), t1 ++ events (k a s1)).
Proof.
  intros Hm. rewrite bind_run, Hm.
  destruct (k a s1) as [[r s2] t2]. reflexivity.
Qed.

Lemma bind_raised {A B} (m : M A) (k : A -> M B) s e s1 t1 :
  m s = (Raised e, s1, t1) -> (m ≫= k) s = (Raised e, s1, t1).
Proof. intros Hm. rewrite bind_run, Hm. reflexivity. Qed.

Lemma bind_blocked {A B} (m : M A) (k : A -> M B) s s1 t1 :
  m s = (Blocked, s1, t1) -> (m ≫= k) s = (Blocked, s1, t1).
Proof. intros Hm. rewrite bind_run, Hm. reflexivity. Qed.

Lemma run_eta {A} (x : outcome A * State * list event) :
  x = (result x, final x, events x).
Proof. destruct x as [[r s] t]. reflexivity. Qed.

Lemma events_bind {A B} (m : M A) (k : A -> M B) s :
  events ((m ≫= k) s) =
    events (m s) ++
    match result (m s) with
    | Returned a => events (k a (final (m s)))
    | _ => []
    end.
Proof.
  rewrite bind_run. destruct (m s) as [[[a|e|] s1] t1]; cbn.
  - destruct (k a s1) as [[r s2] t2]. reflexivity.
  - symmetry. apply app_nil_r.
  - symmetry. apply app_nil_r.
Qed.

Lemma filter_prefix {A} (f : A -> bool) (l1 l2 : list A) :
  l1 `prefix_of` l2 -> List.filter f l1 `prefix_of` List.filter f l2.
Proof. intros [k ->]. exists (List.filter f k). apply List.filter_app. Qed.

(** ** What the library calls do, in one equation each *)

Lemma syscall_run ev s :
  syscall ev s =
    (match fault (world s) ev with
     | Some errno => Raised (OSError errno)
     | None => Returned tt
     end, s, [ev]).
Proof. cbv [syscall emit get raise mret mbind M_ret M_bind]. destruct (fault (world s) ev); reflexivity. Qed.

Lemma getattr_agent_run s :
  getattr_agent s =
    (match agent (manager s) with
     | Some p => Returned p
     | None => Raised (AttributeError "agent")
     end, s, []).
Proof. cbv [getattr_agent get raise mret mbind M_ret M_bind]. destruct (agent (manager s)); reflexivity. Qed.

Lemma getattr_vnc_run s :
  getattr_vnc s =
    (match vnc (manager s) with
     | Some p => Returned p
     | None => Raised (AttributeError "vnc")
     end, s, []).
Proof. cbv [getattr_vnc get raise mret mbind M_ret M_bind]. destruct (vnc (manager s)); reflexivity. Qed.

Lemma subprocess_run_run argv input cap s :
  subprocess_run argv input cap s =
    (match fault (world s) (Run argv input cap) with
     | Some errno => Raised (OSError errno)
     | None =>
         Returned {| cp_args := argv;
                     cp_returncode := (child_result (world s) argv input).1;
                     cp_stdout := if cap then Some (child_result (world s) argv input).2 else None |}
     end, s, [Run argv input cap]).
Proof.
  unfold subprocess_run. rewrite bind_run, syscall_run.
  destruct (fault (world s) (Run argv input cap)); [reflexivity|].
  cbv [get mret mbind M_ret M_bind]. destruct (child_result (world s) argv input). reflexivity.
Qed.

Lemma environ_getitem_run key s :
  environ_getitem key s =
    (match environ (world s) !! key with
     | Some v => Returned v
     | None => Raised (KeyError key)
     end, s, []).
Proof.
  cbv [environ_getitem get raise mret mbind M_ret M_bind].
  destruct (environ (world s) !! key); reflexivity.
Qed.

Lemma encode_run text s :
  encode text s =
    (if utf8_valid (raw_bytes text) then Returned (raw_bytes text)
     else Raised UnicodeEncodeError, s, []).
Proof. unfold encode. destruct (utf8_valid (raw_bytes text)); reflexivity. Qed.

Lemma os_makedirs_run path mode ok s :
  os_makedirs path mode ok s =
    match fs (world s) !! path with
    | Some (Dir _) =>
        (if ok then Returned tt else Raised FileExistsError, s, [Makedirs path mode ok])
    | Some (File _ _) => (Raised FileExistsError, s, [Makedirs path mode ok])
    | None =>
        match fault (world s) (Makedirs path mode ok) with
        | Some errno => (Raised (OSError errno), s, [Makedirs path mode ok])
        | None =>
            (Returned tt,
             set_fs <[path := Dir (mkdir_mode mode (umask (world s)))]> s,
             [Makedirs path mode ok])
        end
    end.
Proof.
  unfold os_makedirs. rewrite bind_run. cbn [get].
  destruct (fs (world s) !! path) as [[md|md c]|].
  - destruct ok; reflexivity.
  - reflexivity.
  - rewrite bind_run, syscall_run.
    destruct (fault (world s) (Makedirs path mode ok)); reflexivity.
Qed.

Lemma open_wb_run path s :
  open_wb path s =
    match fs (world s) !! path with
    | Some (Dir _) => (Raised IsADirectoryError, s, [Open path])
    | n =>
        match fault (world s) (Open path) with
        | Some errno => (Raised (OSError errno), s, [Open path])
        | None =>
            (Returned tt,
             set_fs <[path := File match n with
                                   | Some (File md _) => md
                                   | _ => Z.land (oct [6; 6; 6]) (Z.lnot (umask (world s)))
                                   end []]> s,
             [Open path])
        end
    end.
Proof.
  unfold open_wb. rewrite bind_run. cbn [get].
  destruct (fs (world s) !! path) as [[md|md c]|].
  - reflexivity.
  - rewrite bind_run, syscall_run. destruct (fault (world s) (Open path)); reflexivity.
  - rewrite bind_run, syscall_run. destruct (fault (world s) (Open path)); reflexivity.
Qed.

Lemma file_write_run path d s :
  file_write path (Some d) s =
    match fault (world s) (Fwrite path d) with
    | Some errno => (Raised (OSError errno), s, [Fwrite path d])
    | None =>
        match fs (world s) !! path with
        | Some (File md c) =>
            (Returned tt, set_fs <[path := File md (c ++ d)]> s, [Fwrite path d])
        | _ => (Raised (OSError EBADF), s, [Fwrite path d])
        end
    end.
Proof.
  unfold file_write. rewrite bind_run, syscall_run.
  destruct (fault (world s) (Fwrite path d)); [reflexivity|].
  rewrite bind_run. cbn [get].
  destruct (fs (world s) !! path) as [[md|md c]|]; reflexivity.
Qed.

Lemma os_chmod_run path mode s :
  os_chmod path mode s =
    match fs (world s) !! path with
    | None => (Raised FileNotFoundError, s, [Chmod path mode])
    | Some n =>
        match fault (world s) (Chmod path mode) with
        | Some errno => (Raised (OSError errno), s, [Chmod path mode])
        | None =>
            (Returned tt,
             set_fs <[path := match n with
                              | Dir _ => Dir mode
                              | File _ c => File mode c
                              end]> s,
             [Chmod path mode])
        end
    end.
Proof.
  unfold os_chmod. rewrite bind_run. cbn [get].
  destruct (fs (world s) !! path) as [n|]; [|reflexivity].
  rewrite bind_run, syscall_run. destruct (fault (world s) (Chmod path mode)); reflexivity.
Qed.

Lemma subprocess_Popen_run argv s :
  subprocess_Popen argv s =
    (match fault (world s) (Spawn argv) with
     | Some errno => Raised (OSError errno)
     | None => Returned {| pid := child_pid (world s) argv; args := argv |}
     end, s, [Spawn argv]).
Proof.
  unfold subprocess_Popen. rewrite bind_run, syscall_run.
  destruct (fault (world s) (Spawn argv)); reflexivity.
Qed.

Lemma Popen_wait_run p s :
  Popen_wait p s =
    (match exit_status (world s) (pid p) with
     | Some status => Returned status
     | None => Blocked
     end, s, [Wait (pid p)]).
Proof.
  cbv [Popen_wait emit get block mret mbind M_ret M_bind].
  destruct (exit_status (world s) (pid p)); reflexivity.
Qed.

Lemma permits_fault w ev : permits w ev = true -> fault w ev = None.
Proof. unfold permits. destruct (fault w ev); [discriminate|reflexivity]. Qed.

Lemma os_makedirs_events path mode ok s :
  events (os_makedirs path mode ok s) = [Makedirs path mode ok].
Proof.
  rewrite os_makedirs_run.
  destruct (fs (world s) !! path) as [[md|md c]|]; try reflexivity.
  destruct (fault (world s) (Makedirs path mode ok)); reflexivity.
Qed.

(** ** Steps that cannot fail *)

Lemma passive_seq (m k : M unit) : passive m -> passive k -> passive (m;; k).
Proof.
  intros Hm Hk s. rewrite (bind_returned _ _ _ _ _ _ (Hm s)).
  rewrite (Hk s) at 1 2. reflexivity.
Qed.

Lemma passive_logger_info msg : passive (logger_info msg).
Proof. intros s. reflexivity. Qed.

Lemma passive_logger_error msg e : passive (logger_error msg e).
Proof. intros s. reflexivity. Qed.

(** A [try] block whose body is harmless and whose handler only logs
    cannot fail. *)
Lemma passive_try_except (body : M unit) msg :
  harmless body -> passive (try_except body (logger_error msg)).
Proof.
  intros Hbody s. destruct (Hbody s) as [Hs Hr].
  unfold try_except. rewrite (run_eta (body s)) in *. cbn in Hs, Hr.
  rewrite Hs. destruct (result (body s)) as [[]|e|]; cbn.
  - reflexivity.
  - rewrite Hr. reflexivity.
  - contradiction.
Qed.

Lemma harmless_syscall ev : harmless (syscall ev).
Proof. intros s. rewrite syscall_run. destruct (fault (world s) ev); cbn; auto. Qed.

Lemma harmless_getattr_agent : harmless getattr_agent.
Proof. intros s. rewrite getattr_agent_run. destruct (agent (manager s)); cbn; auto. Qed.

Lemma harmless_getattr_vnc : harmless getattr_vnc.
Proof. intros s. rewrite getattr_vnc_run. destruct (vnc (manager s)); cbn; auto. Qed.

Lemma harmless_ret {A} (a : A) : harmless (mret a).
Proof. intros s. cbn. auto. Qed.

Lemma harmless_bind {A B} (m : M A) (k : A -> M B) :
  harmless m -> (forall a, harmless (k a)) -> harmless (m ≫= k).
Proof.
  intros Hm Hk s. destruct (Hm s) as [Hs Hr].
  rewrite bind_run. rewrite (run_eta (m s)) in *. cbn in Hs, Hr. subst.
  destruct (result (m s)) as [a|e|]; cbn; [|auto|contradiction].
  rewrite Hs. destruct (Hk a s) as [Hs' Hr'].
  rewrite (run_eta (k a s)) in *. cbn in *. auto.
Qed.

Lemma harmless_subprocess_run argv input cap : harmless (subprocess_run argv input cap).
Proof.
  intros s. rewrite subprocess_run_run.
  destruct (fault (world s) (Run argv input cap)); cbn; auto.
Qed.

Create HintDb shutdown.

#[local] Hint Resolve passive_seq passive_logger_info passive_try_except
  harmless_syscall harmless_getattr_agent harmless_getattr_vnc harmless_ret
  harmless_bind harmless_subprocess_run : shutdown.

(** The whole handler is a sequence of such steps. *)
Lemma stop_passive signum frame : passive (stop signum frame).
Proof.
  unfold stop, os_kill, truthy.
  repeat (apply passive_seq); auto 8 with shutdown.
Qed.

(** ** Symbolic runs

    A run of the script on an arbitrary machine is followed by asking the
    machine for each answer the run depends on. *)

Ltac unfold_script :=
  cbv [stop start start_vnc start_agent __init__ deliver
       getattr_agent getattr_vnc os_kill subprocess_run subprocess_Popen
       Popen_wait environ_getitem signal_signal logger_info logger_error
       syscall try_except truthy emit get modify raise block
       mret mbind M_ret M_bind result final events
       set_agent set_vnc set_handlers manager world].

Ltac ask_machine :=
  match goal with
  | |- context [fault ?w ?ev] =>
      let E := fresh "E" in destruct (fault w ev) eqn:E; cbn
  | |- context [child_result ?w ?a ?i] =>
      let E := fresh "E" in destruct (child_result w a i) eqn:E; cbn
  | |- context [exit_status ?w ?p] =>
      let E := fresh "E" in destruct (exit_status w p) eqn:E; cbn
  end.

Ltac run_stop st :=
  destruct st as [[[?a|] [?v|]] ?w]; unfold_script; cbn; repeat ask_machine.

(** ** The shutdown handler *)

(** C2.  The shutdown handler returns normally from every state of the
    manager and on every machine: with the agent handle unset, with the
    display-server handle unset, when [os.kill] is refused because the
    process is gone (or for any other [errno]), and when a removal command
    cannot be started or exits with a failure status, in any combination. *)
Theorem stop_never_raises (signum : Z) (frame : Frame) (st : State) :
  result (stop signum frame st) = Returned tt.
Proof. rewrite (stop_passive signum frame st). reflexivity. Qed.

(** C10.  The shutdown handler leaves both process handles as they were. *)
Theorem stop_keeps_handles (signum : Z) (frame : Frame) (st : State) :
  agent (manager (final (stop signum frame st))) = agent (manager st) /\
  vnc (manager (final (stop signum frame st))) = vnc (manager st).
Proof. rewrite (stop_passive signum frame st). split; reflexivity. Qed.

(** C1, as amended.  After [__init__] each of SIGINT, SIGHUP and SIGTERM
    is bound to the handler, and the handler does the same whatever signal
    and frame it receives.  Its attempts are, in this order: a SIGTERM to
    the agent if its handle is set, a SIGTERM to the display server if its
    handle is set, then the removal of the lock file; they always form an
    initial segment of the sequence of the specification, and they are the
    whole sequence, ending with the removal of the socket, whenever the
    machine does not refuse to start the first removal command. *)
Theorem stop_attempts_in_order (signum : Z) (frame : Frame) (st : State) :
  Forall (fun sg => deliver sg frame (final (__init__ st)) =
                    Some (stop sg frame (final (__init__ st))))
         [SIGINT; SIGHUP; SIGTERM] /\
  (forall signum' frame', stop signum' frame' st = stop signum frame st) /\
  (kill_attempts (manager st) ++ [Run rm_lock None false])
    `prefix_of` attempts (events (stop signum frame st)) /\
  attempts (events (stop signum frame st)) `prefix_of` shutdown_sequence (manager st) /\
  (permits (world st) (Run rm_lock None false) = true ->
   attempts (events (stop signum frame st)) = shutdown_sequence (manager st)).
Proof.
  split; [|split; [reflexivity|]].
  - repeat constructor; cbv [deliver __init__ signal_signal emit modify mbind M_bind
      final set_handlers handlers world]; cbn [fst snd].
    + rewrite lookup_insert_ne by done. rewrite lookup_insert_ne by done.
      rewrite lookup_insert_eq. reflexivity.
    + rewrite lookup_insert_ne by done. rewrite lookup_insert_eq. reflexivity.
    + rewrite lookup_insert_eq. reflexivity.
  - unfold permits, shutdown_sequence, kill_attempts, removals.
    run_stop st; repeat split; try discriminate; try reflexivity;
      try (intros _; reflexivity); eexists; reflexivity.
Qed.

(** C4, as amended.  Every invocation of the handler returns normally and
    makes exactly one termination attempt for each handle that is set; it
    makes exactly the two removal attempts, the lock file then the socket,
    whenever the machine does not refuse to start the first removal
    command, whatever the exit statuses of the commands and whether or not
    the second one can be started. *)
Theorem stop_attempt_counts (signum : Z) (frame : Frame) (st : State) :
  result (stop signum frame st) = Returned tt /\
  List.filter is_kill (events (stop signum frame st)) = kill_attempts (manager st) /\
  length (List.filter is_kill (events (stop signum frame st))) = handles_set (manager st) /\
  (permits (world st) (Run rm_lock None false) = true ->
   List.filter is_run (events (stop signum frame st)) = removals).
Proof.
  split; [rewrite (stop_passive signum frame st); reflexivity|].
  unfold permits, handles_set, kill_attempts, removals.
  run_stop st; repeat split; try discriminate; reflexivity.
Qed.

Lemma stop_attempts_in_order_witness :
  permits (world (running willing)) (Run rm_lock None false) = true /\
  attempts (events (stop SIGINT frame0 (running willing))) =
    [Kill 101 SIGTERM; Kill 100 SIGTERM;
     Run rm_lock None false; Run rm_socket None false].
Proof.
  split; [reflexivity|].
  destruct (stop_attempts_in_order SIGINT frame0 (running willing))
    as (_ & _ & _ & _ & H).
  apply H. reflexivity.
Defined.

(** C1, as stated, fails when [sudo] cannot be started: the first removal
    raises, the handler of the [try] block logs it, and the removal of the
    socket is never attempted. *)
Lemma stop_skips_socket_removal :
  attempts (events (stop SIGTERM frame0 (running no_sudo))) =
    [Kill 101 SIGTERM; Kill 100 SIGTERM; Run rm_lock None false] /\
  attempts (events (stop SIGTERM frame0 (running no_sudo))) <>
    shutdown_sequence (manager (running no_sudo)).
Proof. split; [reflexivity|]. vm_compute. discriminate. Qed.

Lemma stop_attempt_counts_witness :
  permits (world stale) (Run rm_lock None false) = true /\
  (child_result (world stale) rm_lock None).1 = 1 /\
  result (stop SIGTERM frame0 stale) = Returned tt /\
  List.filter is_kill (events (stop SIGTERM frame0 stale)) = [Kill 100 SIGTERM] /\
  List.filter is_run (events (stop SIGTERM frame0 stale)) =
    [Run rm_lock None false; Run rm_socket None false].
Proof.
  split; [reflexivity|]. split; [reflexivity|].
  destruct (stop_attempt_counts SIGTERM frame0 stale) as (H1 & H2 & _ & H4).
  split; [exact H1|]. split; [exact H2|]. apply H4. reflexivity.
Defined.

(** C4, as stated, fails when the first removal fails to start: one
    removal is attempted, not two. *)
Lemma stop_single_removal_attempt :
  fault (world (display_only no_sudo)) (Run rm_lock None false) = Some ENOENT /\
  List.filter is_run (events (stop SIGHUP frame0 (display_only no_sudo))) =
    [Run rm_lock None false] /\
  length (List.filter is_run (events (stop SIGHUP frame0 (display_only no_sudo)))) <> 2%nat.
Proof. split; [reflexivity|]. split; [reflexivity|]. vm_compute. discriminate. Qed.

(** The four failures at once, as far as they can meet: no agent handle,
    a display server that is gone, and a [sudo] that cannot be started. *)
Example stop_when_all_is_gone :
  stop SIGTERM frame0 (display_only all_gone) =
    (Returned tt, display_only all_gone,
     [ Log INFO "Stop agent..." None;
       Log ERROR "Error at stop agent" (Some (AttributeError "agent"));
       Log INFO "Stop vnc..." None;
       Kill 100 SIGTERM;
       Log ERROR "Error at stop vnc" (Some ProcessLookupError);
       Run rm_lock None false;
       Log ERROR "Error at cleanup X" (Some FileNotFoundError) ]).
Proof. reflexivity. Qed.

(** ** Starting the agent *)

Lemma start_agent_run st :
  start_agent st =
    match fault (world st) (Spawn agent_argv) with
    | Some errno =>
        (Raised (OSError errno), st, [Log INFO "Start agent..." None; Spawn agent_argv])
    | None =>
        let child := {| pid := child_pid (world st) agent_argv; args := agent_argv |} in
        (match exit_status (world st) (pid child) with
         | Some _ => Returned tt
         | None => Blocked
         end,
         set_agent child st,
         [Log INFO "Start agent..." None; Spawn agent_argv; Wait (pid child)])
    end.
Proof.
  unfold start_agent. rewrite bind_run. cbn [logger_info emit].
  rewrite bind_run, subprocess_Popen_run.
  destruct (fault (world st) (Spawn agent_argv)) as [errno|]; [reflexivity|].
  rewrite bind_run. cbn [modify]. rewrite bind_run, getattr_agent_run.
  cbn [set_agent manager agent]. rewrite bind_run, Popen_wait_run.
  cbn [set_agent world pid].
  destruct (exit_status (world st) (child_pid (world st) agent_argv)); reflexivity.
Qed.

(** C6.  Once the agent process is spawned, [start_agent] returns exactly
    when that process terminates: it blocks for ever on a child that never
    does, and for a child that terminates it returns [None] after the wait,
    with the same state and the same events whatever the exit status. *)
Theorem start_agent_waits (st : State) :
  permits (world st) (Spawn agent_argv) = true ->
  let child := {| pid := child_pid (world st) agent_argv; args := agent_argv |} in
  let calls := [Log INFO "Start agent..." None; Spawn agent_argv; Wait (pid child)] in
  (exit_status (world st) (pid child) = None ->
   start_agent st = (Blocked, set_agent child st, calls)) /\
  (forall status, exit_status (world st) (pid child) = Some status ->
   start_agent st = (Returned tt, set_agent child st, calls)).
Proof.
  intros Hspawn child calls. unfold permits in Hspawn. rewrite start_agent_run.
  destruct (fault (world st) (Spawn agent_argv)); [discriminate|].
  subst child calls. cbv zeta. cbn [pid].
  split; [intros Hwait|intros status Hwait]; rewrite Hwait; reflexivity.
Qed.

Lemma start_agent_waits_witness :
  permits (world (running willing)) (Spawn agent_argv) = true /\
  start_agent (running willing) =
    (Blocked, set_agent wechat (running willing),
     [Log INFO "Start agent..." None; Spawn agent_argv; Wait 101]) /\
  start_agent (booting ∅ ∅ willing 0 [] (Some 3)) =
    (Returned tt, set_agent wechat (booting ∅ ∅ willing 0 [] (Some 3)),
     [Log INFO "Start agent..." None; Spawn agent_argv; Wait 101]).
Proof.
  split; [reflexivity|]. split.
  - apply (start_agent_waits (running willing)); reflexivity.
  - apply (start_agent_waits (booting ∅ ∅ willing 0 [] (Some 3))) with (status := 3);
      reflexivity.
Defined.

(** ** Starting the display server *)

#[local] Arguments os_makedirs : simpl never.
#[local] Arguments open_wb : simpl never.
#[local] Arguments file_write : simpl never.
#[local] Arguments os_chmod : simpl never.
#[local] Arguments environ_getitem : simpl never.
#[local] Arguments encode : simpl never.
#[local] Arguments subprocess_run : simpl never.
#[local] Arguments subprocess_Popen : simpl never.
#[local] Arguments syscall : simpl never.

Ltac unfold_start_vnc :=
  cbv [start_vnc logger_info emit modify mbind M_bind mret M_ret].

(** One call of [start_vnc] on the machine as the calls before it left it. *)
Ltac vnc_step :=
  rewrite ?os_makedirs_run, ?environ_getitem_run, ?encode_run, ?subprocess_run_run,
    ?open_wb_run, ?file_write_run, ?os_chmod_run, ?subprocess_Popen_run;
  cbn [set_fs set_vnc world fs fault environ child_result umask manager child_pid
       cp_stdout fst snd];
  rewrite ?lookup_insert_eq, ?lookup_insert_ne by done.

(** Without a password [start_vnc] stops at the lookup in [os.environ]. *)
Lemma start_vnc_without_password st :
  environ (world st) !! "VNCPASS" = None ->
  exists e, result (start_vnc st) = Raised e /\
  manager (final (start_vnc st)) = manager st /\
  events (start_vnc st) = [Log INFO "Start vnc..." None; Makedirs vnc_dir 755 true].
Proof.
  intros Henv. unfold_start_vnc. vnc_step.
  destruct (fs (world st) !! vnc_dir) as [[md|md c]|] eqn:Hdir.
  - vnc_step. rewrite Henv. cbn. eauto.
  - cbn. eauto.
  - destruct (fault (world st) (Makedirs vnc_dir 755 true)).
    + cbn. eauto.
    + vnc_step. rewrite Henv. cbn. eauto.
Qed.

(** When the directory can be ensured and no later call is refused,
    [start_vnc] runs to its end. *)
Lemma start_vnc_succeeds st password :
  environ (world st) !! "VNCPASS" = Some password ->
  utf8_valid (raw_bytes password) = true ->
  is_file (fs (world st) !! vnc_dir) = false ->
  is_dir (fs (world st) !! vnc_dir) || permits (world st) (Makedirs vnc_dir 755 true) = true ->
  is_dir (fs (world st) !! vnc_passwd) = false ->
  forallb (permits (world st)) (tail (start_vnc_sequence (world st) password)) = true ->
  exists files,
    start_vnc st =
      (Returned tt,
       set_vnc {| pid := child_pid (world st) vncserver_argv; args := vncserver_argv |}
         (set_fs (fun _ => files) st),
       Log INFO "Start vnc..." None :: start_vnc_sequence (world st) password) /\
    files !! vnc_passwd =
      Some (File (oct [7; 0; 0])
                 (child_result (world st) vncpasswd_argv (Some (raw_bytes password))).2) /\
    files !! vnc_dir =
      Some (Dir match fs (world st) !! vnc_dir with
                | Some (Dir md) => md
                | _ => mkdir_mode 755 (umask (world st))
                end) /\
    (forall path, path <> vnc_dir -> path <> vnc_passwd ->
       files !! path = fs (world st) !! path).
Proof.
  intros Henv Hvalid Hnofile Hdir Hpasswd Hcalls.
  cbn [start_vnc_sequence tail forallb] in Hcalls.
  repeat (apply andb_prop in Hcalls; destruct Hcalls as [?%permits_fault Hcalls]).
  destruct st as [m w]. cbn [world manager] in *.
  unfold_start_vnc. vnc_step.
  destruct (fs w !! vnc_dir) as [[md|md c]|] eqn:Edir; [| discriminate |].
  2: apply permits_fault in Hdir; rewrite Hdir.
  all: vnc_step; rewrite Henv; cbn [app]; vnc_step; rewrite Hvalid; cbn [app];
    vnc_step; rewrite H; cbn [app]; vnc_step.
  all: destruct (fs w !! vnc_passwd) as [[pmd|pmd c]|] eqn:Epw; [discriminate| |].
  all: rewrite H0; vnc_step; rewrite H1; vnc_step; rewrite H2; vnc_step; rewrite H3.
  all: eexists; split; [reflexivity|]; cbn [set_fs world fs app].
  all: repeat split; [| |intros path ? ?].
  all: repeat (rewrite lookup_insert_eq || rewrite lookup_insert_ne by done); done.
Qed.

(** The cases of a run of [start_vnc]: every answer of the machine on
    which the run depends. *)
Ltac vnc_cases :=
  repeat first
    [ progress vnc_step
    | progress cbn [app]
    | match goal with
      | H : environ ?w !! ?k = _ |- context [environ ?w !! ?k] => rewrite H
      | |- context [utf8_valid ?l] => destruct (utf8_valid l) eqn:?
      | |- context [fs ?w !! ?p] =>
          destruct (fs w !! p) as [[?md|?md ?c]|] eqn:?
      | |- context [fault ?w ?ev] =>
          destruct (fault w ev) as [?errno|] eqn:?
      end ].

(** The return code of the commands is never looked at: on a machine
    whose commands exit with another code, [start_vnc] does the same. *)
Lemma start_vnc_exit_status code st :
  start_vnc (exiting_with code st) =
    (result (start_vnc st), exiting_with code (final (start_vnc st)),
     events (start_vnc st)).
Proof.
  destruct st as [m w]. unfold exiting_with. cbn [manager world].
  unfold_start_vnc.
  destruct (environ w !! "VNCPASS") as [password|] eqn:Henv;
    vnc_cases; reflexivity.
Qed.

(** The calls of [start_vnc] come in the order of its sequence, wherever
    the run stops. *)
Lemma start_vnc_events_prefix st password :
  environ (world st) !! "VNCPASS" = Some password ->
  events (start_vnc st) `prefix_of`
    (Log INFO "Start vnc..." None :: start_vnc_sequence (world st) password).
Proof.
  intros Henv. destruct st as [m w]. cbn [manager world] in *.
  unfold_start_vnc. unfold start_vnc_sequence.
  vnc_cases; cbn; eexists; reflexivity.
Qed.

(** A run of [start_vnc] that returns made every call of the sequence,
    and left the answers of the machine as they were. *)
Lemma start_vnc_returned st password :
  environ (world st) !! "VNCPASS" = Some password ->
  result (start_vnc st) = Returned tt ->
  events (start_vnc st) =
    Log INFO "Start vnc..." None :: start_vnc_sequence (world st) password /\
  fault (world (final (start_vnc st))) = fault (world st) /\
  child_pid (world (final (start_vnc st))) = child_pid (world st) /\
  exit_status (world (final (start_vnc st))) = exit_status (world st).
Proof.
  intros Henv. destruct st as [m w]. cbn [manager world] in *.
  unfold_start_vnc. unfold start_vnc_sequence.
  vnc_cases; cbn; intros Hret; try discriminate Hret; repeat split.
Qed.

(** C8.  The first call of [start_vnc] is [os.makedirs] with the decimal
    mode 755, which is 0o1363 and not 0o755; whatever the umask, a
    directory created with it does not get the mode 0o755. *)
Theorem start_vnc_directory_mode (st : State) :
  (exists rest,
     events (start_vnc st) =
       Log INFO "Start vnc..." None :: Makedirs vnc_dir 755 true :: rest) /\
  755 = oct [1; 3; 6; 3] /\
  755 <> oct [7; 5; 5] /\
  (forall mask, mkdir_mode 755 mask <> oct [7; 5; 5]).
Proof.
  split; [|split; [reflexivity|split; [discriminate|]]].
  - unfold start_vnc. rewrite events_bind. cbn [logger_info emit events result final fst snd].
    rewrite events_bind, os_makedirs_events. eexists. reflexivity.
  - intros mask H. apply (f_equal (fun z => Z.testbit z 8)) in H.
    unfold mkdir_mode in H. rewrite !Z.land_spec in H.
    change (Z.testbit 755 8) with false in H.
    change (Z.testbit (oct [7; 5; 5]) 8) with true in H.
    discriminate H.
Qed.

(** C5.  When the password is set and encodes, the path of the credential
    file is not a directory, the machine refuses none of the calls that
    follow the creation of the directory, and the directory either exists
    or can be created, [start_vnc] returns.  The directory is ensured with
    [exist_ok]: on a directory that exists the call returns and changes
    nothing, whatever the machine would answer to a creation, and the
    directory exists afterwards.  The credential file ends with mode
    0o700, that is [rwx] for the owner and no bit for group or others.
    The only process spawned is the display server, with the argument
    list [-localhost no -xstartup /usr/bin/openbox :5], and its handle is
    stored. *)
Theorem start_vnc_contract (st : State) (password : string) :
  environ (world st) !! "VNCPASS" = Some password ->
  utf8_valid (raw_bytes password) = true ->
  is_file (fs (world st) !! vnc_dir) = false ->
  is_dir (fs (world st) !! vnc_dir) || permits (world st) (Makedirs vnc_dir 755 true) = true ->
  is_dir (fs (world st) !! vnc_passwd) = false ->
  forallb (permits (world st)) (tail (start_vnc_sequence (world st) password)) = true ->
  result (start_vnc st) = Returned tt /\
  events (start_vnc st) =
    Log INFO "Start vnc..." None :: start_vnc_sequence (world st) password /\
  (forall s, is_dir (fs (world s) !! vnc_dir) = true ->
     os_makedirs vnc_dir 755 true s = (Returned tt, s, [Makedirs vnc_dir 755 true])) /\
  is_dir (fs (world (final (start_vnc st))) !! vnc_dir) = true /\
  (is_dir (fs (world st) !! vnc_dir) = true ->
     fs (world (final (start_vnc st))) !! vnc_dir = fs (world st) !! vnc_dir) /\
  fs (world (final (start_vnc st))) !! vnc_passwd =
    Some (File (oct [7; 0; 0])
               (child_result (world st) vncpasswd_argv (Some (raw_bytes password))).2) /\
  map (Z.testbit (oct [7; 0; 0])) [8; 7; 6; 5; 4; 3; 2; 1; 0] =
    [true; true; true; false; false; false; false; false; false] /\
  List.filter is_spawn (events (start_vnc st)) =
    [Spawn ["/usr/bin/vncserver"; "-localhost"; "no"; "-xstartup"; "/usr/bin/openbox"; ":5"]] /\
  vnc (manager (final (start_vnc st))) =
    Some {| pid := child_pid (world st) vncserver_argv;
            args := ["/usr/bin/vncserver"; "-localhost"; "no"; "-xstartup";
                     "/usr/bin/openbox"; ":5"] |}.
Proof.
  intros Henv Hvalid Hnofile Hdir Hpasswd Hcalls.
  destruct (start_vnc_succeeds st password Henv Hvalid Hnofile Hdir Hpasswd Hcalls)
    as (files & Hrun & Hpw & Hd & _).
  rewrite Hrun. cbn [result final events fst snd set_vnc set_fs world fs manager vnc].
  repeat split; try assumption.
  - intros s Hs. rewrite os_makedirs_run.
    destruct (fs (world s) !! vnc_dir) as [[md|md c]|]; try discriminate Hs. reflexivity.
  - rewrite Hd. reflexivity.
  - intros Hexists. rewrite Hd.
    destruct (fs (world st) !! vnc_dir) as [[md|md c]|]; try discriminate Hexists.
    reflexivity.
Qed.

Lemma start_vnc_contract_witness :
  permits (world second_boot) (Makedirs vnc_dir 755 true) = false /\
  result (start_vnc second_boot) = Returned tt /\
  fs (world (final (start_vnc second_boot))) !! vnc_dir = Some (Dir (oct [7; 5; 5])) /\
  fs (world (final (start_vnc second_boot))) !! vnc_passwd =
    Some (File (oct [7; 0; 0]) [Byte.x2a]) /\
  vnc (manager (final (start_vnc second_boot))) = Some display.
Proof.
  split; [reflexivity|].
  destruct (start_vnc_contract second_boot "secret")
    as (H1 & _ & _ & _ & H5 & H6 & _ & _ & H9); try reflexivity.
  split; [exact H1|]. split; [rewrite H5; reflexivity|].
  split; [exact H6|exact H9].
Defined.

(** C9, as amended.  [start_vnc] never looks at the return code of
    [vncpasswd]: on a machine whose commands exit with any other code it
    has the same outcome, attempts the same calls and leaves the same
    manager and files.  When the password is set and encodes, [vncpasswd]
    exits with a status other than 0, the directory can be ensured, the
    path of the credential file is not a directory and the machine
    refuses none of the calls that follow, the run returns: what the
    command printed, empty or not, is the content of the credential file,
    and the display server is spawned and its handle stored. *)
Theorem start_vnc_ignores_hash_status (st : State) (password : string) :
  environ (world st) !! "VNCPASS" = Some password ->
  utf8_valid (raw_bytes password) = true ->
  (child_result (world st) vncpasswd_argv (Some (raw_bytes password))).1 <> 0 ->
  is_file (fs (world st) !! vnc_dir) = false ->
  is_dir (fs (world st) !! vnc_dir) || permits (world st) (Makedirs vnc_dir 755 true) = true ->
  is_dir (fs (world st) !! vnc_passwd) = false ->
  forallb (permits (world st)) (tail (start_vnc_sequence (world st) password)) = true ->
  (forall code,
     start_vnc (exiting_with code st) =
       (result (start_vnc st), exiting_with code (final (start_vnc st)),
        events (start_vnc st))) /\
  result (start_vnc st) = Returned tt /\
  fs (world (final (start_vnc st))) !! vnc_passwd =
    Some (File (oct [7; 0; 0])
               (child_result (world st) vncpasswd_argv (Some (raw_bytes password))).2) /\
  List.filter is_launch (events (start_vnc st)) =
    [Run vncpasswd_argv (Some (raw_bytes password)) true; Spawn vncserver_argv] /\
  vnc (manager (final (start_vnc st))) =
    Some {| pid := child_pid (world st) vncserver_argv; args := vncserver_argv |}.
Proof.
  intros Henv Hvalid _ Hnofile Hdir Hpasswd Hcalls.
  split; [intros code; apply start_vnc_exit_status|].
  destruct (start_vnc_succeeds st password Henv Hvalid Hnofile Hdir Hpasswd Hcalls)
    as (files & Hrun & Hpw & _).
  rewrite Hrun. cbn [result final events fst snd set_vnc set_fs world fs manager vnc].
  split; [reflexivity|]. split; [exact Hpw|]. split; reflexivity.
Qed.

Lemma start_vnc_ignores_hash_status_witness :
  child_result (world failed_hash) vncpasswd_argv
    (Some [Byte.x73; Byte.x65; Byte.x63; Byte.x72; Byte.x65; Byte.x74]) = (1, []) /\
  result (start_vnc failed_hash) = Returned tt /\
  fs (world (final (start_vnc failed_hash))) !! vnc_passwd = Some (File (oct [7; 0; 0]) []) /\
  vnc (manager (final (start_vnc failed_hash))) = Some display.
Proof.
  split; [reflexivity|].
  destruct (start_vnc_ignores_hash_status failed_hash "secret")
    as (_ & H2 & H3 & _ & H5); try reflexivity; [discriminate|].
  split; [exact H2|]. split; [exact H3|exact H5].
Defined.

(** C9, as stated, fails when a later call is refused: the password is
    set, [vncpasswd] runs and exits with status 1, its output is written,
    but [vncserver] cannot be started, so that [start_vnc] raises and no
    display server runs. *)
Lemma start_vnc_raises_after_failed_hash :
  environ (world failed_hash_no_server) !! "VNCPASS" = Some "secret" /\
  (child_result (world failed_hash_no_server) vncpasswd_argv
     (Some [Byte.x73; Byte.x65; Byte.x63; Byte.x72; Byte.x65; Byte.x74])).1 = 1 /\
  events (start_vnc failed_hash_no_server) =
    [ Log INFO "Start vnc..." None;
      Makedirs vnc_dir 755 true;
      Run vncpasswd_argv
        (Some [Byte.x73; Byte.x65; Byte.x63; Byte.x72; Byte.x65; Byte.x74]) true;
      Open vnc_passwd;
      Fwrite vnc_passwd [];
      Chmod vnc_passwd (oct [7; 0; 0]);
      Spawn vncserver_argv ] /\
  result (start_vnc failed_hash_no_server) = Raised FileNotFoundError /\
  result (start_vnc failed_hash_no_server) <> Returned tt /\
  vnc (manager (final (start_vnc failed_hash_no_server))) = None.
Proof. repeat split. vm_compute. discriminate. Qed.

(** ** The whole start *)

(** C3.  Without VNCPASS in the environment [start] raises; it has then
    attempted nothing but the creation of the directory, so that no
    process was launched (neither [vncpasswd], nor the display server, nor
    the agent), and both handles are as they were, unset on a manager that
    starts. *)
Theorem start_without_password (st : State) :
  environ (world st) !! "VNCPASS" = None ->
  exists e,
    result (start st) = Raised e /\
    agent (manager (final (start st))) = agent (manager st) /\
    vnc (manager (final (start st))) = vnc (manager st) /\
    events (start st) = [Log INFO "Start vnc..." None; Makedirs vnc_dir 755 true] /\
    List.filter is_launch (events (start st)) = [].
Proof.
  intros Henv.
  destruct (start_vnc_without_password st Henv) as (e & Hres & Hman & Hev).
  exists e. unfold start.
  rewrite (bind_raised _ _ st e (final (start_vnc st)) (events (start_vnc st))).
  - unfold result, final, events in *. cbn [fst snd] in *.
    rewrite Hman, Hev. repeat split.
  - rewrite (run_eta (start_vnc st)) at 1. rewrite Hres. reflexivity.
Qed.

Lemma start_without_password_witness :
  environ (world no_password) !! "VNCPASS" = None /\
  exists e,
    result (start no_password) = Raised e /\
    agent (manager (final (start no_password))) = None /\
    vnc (manager (final (start no_password))) = None /\
    events (start no_password) =
      [Log INFO "Start vnc..." None; Makedirs vnc_dir 755 true] /\
    List.filter is_launch (events (start no_password)) = [].
Proof.
  split; [reflexivity|].
  apply (start_without_password no_password). reflexivity.
Defined.

(** C7.  With VNCPASS set to "secret", the calls of [start] are attempted
    in the order: creation of the directory, [vncpasswd] with the six
    bytes of "secret" (73 65 63 72 65 74 in hexadecimal) on its standard
    input, opening, writing and chmod of the credential file, spawn of the
    display server, spawn of the agent, wait for the agent.  Wherever a
    run stops, what it attempted is an initial segment of this sequence;
    when the directory can be ensured and the machine refuses no call,
    the whole sequence is attempted, the wait comes last, and [start]
    returns if the agent terminates and blocks if it does not. *)
Theorem start_runs_in_order (st : State) :
  environ (world st) !! "VNCPASS" = Some "secret" ->
  let secret := [Byte.x73; Byte.x65; Byte.x63; Byte.x72; Byte.x65; Byte.x74] in
  let calls :=
    [ Makedirs vnc_dir 755 true;
      Run vncpasswd_argv (Some secret) true;
      Open vnc_passwd;
      Fwrite vnc_passwd (child_result (world st) vncpasswd_argv (Some secret)).2;
      Chmod vnc_passwd (oct [7; 0; 0]);
      Spawn vncserver_argv;
      Spawn agent_argv;
      Wait (child_pid (world st) agent_argv) ] in
  attempts (events (start st)) `prefix_of` calls /\
  (is_file (fs (world st) !! vnc_dir) = false ->
   is_dir (fs (world st) !! vnc_dir) || permits (world st) (Makedirs vnc_dir 755 true) = true ->
   is_dir (fs (world st) !! vnc_passwd) = false ->
   forallb (permits (world st)) (removelast (tail calls)) = true ->
   attempts (events (start st)) = calls /\
   result (start st) =
     match exit_status (world st) (child_pid (world st) agent_argv) with
     | Some _ => Returned tt
     | None => Blocked
     end).
Proof.
  intros Henv secret calls.
  change calls with (start_sequence (world st) "secret").
  change (removelast (tail (start_sequence (world st) "secret")))
    with (tail (start_vnc_sequence (world st) "secret") ++ [Spawn agent_argv]).
  clear secret calls. split.
  - unfold start. rewrite events_bind.
    pose proof (start_vnc_events_prefix st "secret" Henv) as Hpre.
    destruct (result (start_vnc st)) as [[]|e|] eqn:Hres.
    + destruct (start_vnc_returned st "secret" Henv Hres) as (Hev & Hf & Hp & Hx).
      rewrite Hev, start_agent_run, Hf, Hp.
      unfold start_sequence, start_vnc_sequence.
      destruct (fault (world st) (Spawn agent_argv)); cbn; eexists; reflexivity.
    + rewrite app_nil_r. unfold start_sequence.
      apply (filter_prefix (fun ev => negb (is_log ev))) in Hpre.
      cbn [List.filter is_log negb] in Hpre. unfold attempts.
      etransitivity; [exact Hpre|]. cbn. eexists. reflexivity.
    + rewrite app_nil_r. unfold start_sequence.
      apply (filter_prefix (fun ev => negb (is_log ev))) in Hpre.
      cbn [List.filter is_log negb] in Hpre. unfold attempts.
      etransitivity; [exact Hpre|]. cbn. eexists. reflexivity.
  - intros Hnofile Hdir Hpasswd Hcalls.
    rewrite forallb_app in Hcalls. apply andb_prop in Hcalls as [Hcalls Hagent].
    cbn [forallb] in Hagent. apply andb_prop in Hagent as [Hagent%permits_fault _].
    destruct (start_vnc_succeeds st "secret" Henv eq_refl Hnofile Hdir Hpasswd Hcalls)
      as (files & Hrun & _).
    unfold start. rewrite (bind_returned _ _ _ _ _ _ Hrun), start_agent_run.
    cbn [set_vnc set_fs world fault child_pid exit_status]. rewrite Hagent.
    cbn [result final events fst snd pid]. split; reflexivity.
Qed.

Lemma start_runs_in_order_witness :
  environ (world first_boot) !! "VNCPASS" = Some "secret" /\
  attempts (events (start first_boot)) =
    [ Makedirs vnc_dir 755 true;
      Run vncpasswd_argv
        (Some [Byte.x73; Byte.x65; Byte.x63; Byte.x72; Byte.x65; Byte.x74]) true;
      Open vnc_passwd;
      Fwrite vnc_passwd [Byte.x2a];
      Chmod vnc_passwd (oct [7; 0; 0]);
      Spawn vncserver_argv;
      Spawn agent_argv;
      Wait 101 ] /\
  result (start first_boot) = Returned tt.
Proof.
  split; [reflexivity|].
  destruct (start_runs_in_order first_boot) as [_ H]; [reflexivity|].
  apply H; reflexivity.
Defined.

(** * Further properties *)

(** ** The shutdown handler, continued *)

Lemma stop_kill_events signum frame st :
  List.filter is_kill (events (stop signum frame st)) = kill_attempts (manager st).
Proof. unfold kill_attempts. run_stop st; reflexivity. Qed.

(** X1.  The error lines of a shutdown are exactly these, in this order:
    for each handle, one line when the handle does not exist
    ([AttributeError]) or when the machine refuses the signal (the
    [OSError]), none otherwise; and for the cleanup one line for the first
    removal command that cannot be started, none when both start. *)
Theorem stop_error_log (signum : Z) (frame : Frame) (st : State) :
  List.filter is_error (events (stop signum frame st)) =
    kill_errors "Error at stop agent" "agent" (agent (manager st)) (world st) ++
    kill_errors "Error at stop vnc" "vnc" (vnc (manager st)) (world st) ++
    cleanup_errors (world st).
Proof.
  unfold kill_errors, cleanup_errors.
  run_stop st; first [reflexivity | congruence].
Qed.

(** X9.  The handler never looks at what the removal commands return: on
    a machine whose commands exit with any other status it returns, logs
    and attempts the same. *)
Theorem stop_ignores_exit_status (signum : Z) (frame : Frame) (code : Z) (st : State) :
  stop signum frame (exiting_with code st) =
    (Returned tt, exiting_with code st, events (stop signum frame st)).
Proof.
  destruct st as [[[a|] [v|]] w]; unfold exiting_with; cbn [manager world];
    unfold_script; cbn; repeat ask_machine; first [reflexivity | congruence].
Qed.

(** ** Initialisation and the main program *)

Lemma init_run st :
  __init__ st =
    (Returned tt,
     set_handlers (fun h => <[SIGTERM := Bound_stop]>
                              (<[SIGHUP := Bound_stop]> (<[SIGINT := Bound_stop]> h))) st,
     [Signal SIGINT; Signal SIGHUP; Signal SIGTERM]).
Proof. reflexivity. Qed.

(** X2.  [__init__] always returns; it binds SIGINT, SIGHUP and SIGTERM,
    in this order, to the handler and leaves the binding of every other
    signal, the files, and the manager as they were: in particular it
    assigns neither handle. *)
Theorem init_binds_three_signals (st : State) (sg : Z) :
  result (__init__ st) = Returned tt /\
  events (__init__ st) = [Signal SIGINT; Signal SIGHUP; Signal SIGTERM] /\
  manager (final (__init__ st)) = manager st /\
  fs (world (final (__init__ st))) = fs (world st) /\
  handlers (world (final (__init__ st))) !! sg =
    (if bool_decide (sg = SIGINT \/ sg = SIGHUP \/ sg = SIGTERM)
     then Some Bound_stop
     else handlers (world st) !! sg).
Proof.
  rewrite init_run. cbn [result final events fst snd set_handlers manager world fs handlers].
  repeat split.
  case_bool_decide as Hsg.
  - destruct Hsg as [-> | [-> | ->]].
    + rewrite lookup_insert_ne by done. rewrite lookup_insert_ne by done.
      apply lookup_insert_eq.
    + rewrite lookup_insert_ne by done. apply lookup_insert_eq.
    + apply lookup_insert_eq.
  - rewrite !lookup_insert_ne; [reflexivity|intros E; apply Hsg; symmetry in E; auto..].
Qed.

Lemma main_run st :
  main st =
    (result (start (initialised st)), final (start (initialised st)),
     Log INFO "Start agent manager..." None ::
     Signal SIGINT :: Signal SIGHUP :: Signal SIGTERM ::
     events (start (initialised st))).
Proof.
  unfold main. rewrite bind_run. cbn [logger_info emit].
  rewrite bind_run. cbn [modify]. rewrite bind_run, init_run.
  change (set_handlers _ {| manager := fresh; world := world st |}) with (initialised st).
  destruct (start (initialised st)) as [[r s] t]. reflexivity.
Qed.

Lemma prefix_filter_nil {A} (f : A -> bool) (l1 l2 : list A) :
  l1 `prefix_of` l2 -> List.filter f l2 = [] -> List.filter f l1 = [].
Proof.
  intros Hpre Hnil. apply (filter_prefix f) in Hpre. rewrite Hnil in Hpre.
  apply prefix_nil_inv. exact Hpre.
Qed.

Lemma start_vnc_events_prefix_any st :
  events (start_vnc st) `prefix_of`
    (Log INFO "Start vnc..." None :: start_vnc_sequence (world st) (vncpass (world st))).
Proof.
  unfold vncpass. destruct (environ (world st) !! "VNCPASS") as [password|] eqn:Henv.
  - apply start_vnc_events_prefix. exact Henv.
  - destruct (start_vnc_without_password st Henv) as (e & _ & _ & Hev).
    rewrite Hev. eexists. reflexivity.
Qed.

Lemma start_vnc_returned_any st :
  result (start_vnc st) = Returned tt ->
  environ (world st) !! "VNCPASS" = Some (vncpass (world st)).
Proof.
  intros Hret. unfold vncpass.
  destruct (environ (world st) !! "VNCPASS") as [password|] eqn:Henv; [reflexivity|].
  destruct (start_vnc_without_password st Henv) as (e & Hres & _).
  rewrite Hres in Hret. discriminate Hret.
Qed.

(** The events of [start] come in the order of [start_events], wherever
    the run stops. *)
Lemma start_events_prefix st :
  events (start st) `prefix_of` start_events (world st) (vncpass (world st)).
Proof.
  unfold start. rewrite events_bind.
  pose proof (start_vnc_events_prefix_any st) as Hpre.
  destruct (result (start_vnc st)) as [[]|e|] eqn:Hres.
  - pose proof (start_vnc_returned_any st Hres) as Henv.
    destruct (start_vnc_returned st _ Henv Hres) as (Hev & Hf & Hp & Hx).
    rewrite Hev, start_agent_run, Hf, Hp. unfold start_events.
    destruct (fault (world st) (Spawn agent_argv)); cbn; eexists; reflexivity.
  - rewrite app_nil_r. etransitivity; [exact Hpre|].
    unfold start_events. eexists. rewrite app_comm_cons. reflexivity.
  - rewrite app_nil_r. etransitivity; [exact Hpre|].
    unfold start_events. eexists. rewrite app_comm_cons. reflexivity.
Qed.

(** X3.  Whatever the machine, [main] logs its start and then binds the
    three signals before anything else: no signal is bound later, and
    every process it launches is launched after the three bindings. *)
Theorem main_installs_handlers_first (st : State) :
  exists rest,
    events (main st) =
      Log INFO "Start agent manager..." None ::
      Signal SIGINT :: Signal SIGHUP :: Signal SIGTERM :: rest /\
    List.filter is_signal rest = [] /\
    List.filter is_launch (events (main st)) = List.filter is_launch rest.
Proof.
  exists (events (start (initialised st))). rewrite main_run.
  split; [reflexivity|]. split; [|reflexivity].
  apply (prefix_filter_nil _ _ _ (start_events_prefix (initialised st))).
  reflexivity.
Qed.

(** X4.  By itself [main] never tears anything down: on every machine,
    however the run ends, it sends no signal to a process and starts
    neither of the two removal commands. *)
Theorem main_never_tears_down (st : State) :
  List.filter is_teardown (events (main st)) = [].
Proof.
  rewrite main_run. cbn [events snd List.filter is_teardown].
  apply (prefix_filter_nil _ _ _ (start_events_prefix (initialised st))).
  reflexivity.
Qed.

(** ** Starting, continued *)

(** Whatever happens, [start_vnc] changes nothing but the files and, when
    it returns, the display-server handle. *)
Lemma start_vnc_frame st :
  agent (manager (final (start_vnc st))) = agent (manager st) /\
  environ (world (final (start_vnc st))) = environ (world st) /\
  umask (world (final (start_vnc st))) = umask (world st) /\
  handlers (world (final (start_vnc st))) = handlers (world st) /\
  fault (world (final (start_vnc st))) = fault (world st) /\
  child_pid (world (final (start_vnc st))) = child_pid (world st) /\
  child_result (world (final (start_vnc st))) = child_result (world st) /\
  exit_status (world (final (start_vnc st))) = exit_status (world st) /\
  match result (start_vnc st) with
  | Returned _ =>
      vnc (manager (final (start_vnc st))) =
        Some {| pid := child_pid (world st) vncserver_argv; args := vncserver_argv |}
  | Raised _ => vnc (manager (final (start_vnc st))) = vnc (manager st)
  | Blocked => False
  end.
Proof.
  destruct st as [m w]. cbn [manager world].
  unfold_start_vnc.
  destruct (environ w !! "VNCPASS") as [password|] eqn:Henv;
    vnc_cases; cbn; repeat split.
Qed.

(** X5.  [start_vnc] never touches the agent handle, and it assigns the
    display-server handle exactly when it returns: after a run that
    returns the handle is the process just spawned, after any other run
    it is what it was. *)
Theorem start_vnc_sets_handle_on_return (st : State) :
  agent (manager (final (start_vnc st))) = agent (manager st) /\
  vnc (manager (final (start_vnc st))) =
    match result (start_vnc st) with
    | Returned _ =>
        Some {| pid := child_pid (world st) vncserver_argv; args := vncserver_argv |}
    | _ => vnc (manager st)
    end.
Proof.
  destruct (start_vnc_frame st) as (Ha & _ & _ & _ & _ & _ & _ & _ & Hv).
  split; [exact Ha|].
  destruct (result (start_vnc st)); [exact Hv|exact Hv|contradiction].
Qed.

Lemma bind_eta {A B} (m : M A) (k : A -> M B) s :
  (m ≫= k) s =
    match result (m s) with
    | Returned a =>
        (result (k a (final (m s))), final (k a (final (m s))),
         events (m s) ++ events (k a (final (m s))))
    | Raised e => (Raised e, final (m s), events (m s))
    | Blocked => (Blocked, final (m s), events (m s))
    end.
Proof.
  rewrite bind_run. destruct (m s) as [[[a|e|] s1] t1]; cbn; try reflexivity.
  destruct (k a s1) as [[r s2] t2]. reflexivity.
Qed.

(** A run of [start] that does not raise has reached the wait. *)
Lemma start_reaches_wait st :
  (forall e, result (start st) <> Raised e) ->
  manager (final (start st)) = both_started (world st) /\
  handlers (world (final (start st))) = handlers (world st) /\
  events (start st) = start_events (world st) (vncpass (world st)) /\
  result (start st) =
    match exit_status (world st) (child_pid (world st) agent_argv) with
    | Some _ => Returned tt
    | None => Blocked
    end.
Proof.
  intros Hnot.
  destruct (start_vnc_frame st) as (Ha & _ & _ & Hh & Hf & Hp & _ & Hx & Hv).
  assert (Hstart : start st =
    match result (start_vnc st) with
    | Returned a =>
        (result (start_agent (final (start_vnc st))),
         final (start_agent (final (start_vnc st))),
         events (start_vnc st) ++ events (start_agent (final (start_vnc st))))
    | Raised e => (Raised e, final (start_vnc st), events (start_vnc st))
    | Blocked => (Blocked, final (start_vnc st), events (start_vnc st))
    end) by apply bind_eta.
  destruct (result (start_vnc st)) as [[]|e|] eqn:Hres;
    [|exfalso; apply (Hnot e); rewrite Hstart; reflexivity|contradiction].
  pose proof (start_vnc_returned_any st Hres) as Henv.
  destruct (start_vnc_returned st _ Henv Hres) as (Hev & _).
  rewrite start_agent_run, Hf, Hp, Hx, Hev in Hstart.
  destruct (fault (world st) (Spawn agent_argv)) as [errno|];
    [exfalso; apply (Hnot (OSError errno)); rewrite Hstart; reflexivity|].
  rewrite Hstart.
  cbn [result final events fst snd set_agent manager world pid].
  rewrite Hv, Hh. repeat split.
Qed.

(** X10.  When [start] returns, the agent has terminated: the machine
    gives it an exit status, the calls [start] itself made are the whole
    sequence of a start, the wait last, and both handles are set. *)
Theorem start_returns_after_agent_exit (st : State) :
  result (start st) = Returned tt ->
  (exists status,
     exit_status (world st) (child_pid (world st) agent_argv) = Some status) /\
  manager (final (start st)) = both_started (world st) /\
  events (start st) = start_events (world st) (vncpass (world st)).
Proof.
  intros Hret.
  destruct (start_reaches_wait st) as (Hm & _ & Hev & Hres).
  { intros e He. rewrite Hret in He. discriminate He. }
  split; [|split; [exact Hm|exact Hev]].
  rewrite Hret in Hres.
  destruct (exit_status (world st) (child_pid (world st) agent_argv)) as [status|];
    [eauto|discriminate Hres].
Qed.

Lemma start_returns_after_agent_exit_witness :
  result (start first_boot) = Returned tt /\
  exit_status (world first_boot) 101 = Some 0 /\
  manager (final (start first_boot)) = {| agent := Some wechat; vnc := Some display |}.
Proof.
  split; [reflexivity|]. split; [reflexivity|].
  destruct (start_returns_after_agent_exit first_boot) as (_ & H & _); [reflexivity|].
  exact H.
Defined.

(** X8.  While [main] is blocked in the wait for the agent, the delivery
    of SIGINT, SIGHUP or SIGTERM runs the handler, which returns, leaves
    the state as it is, and signals the agent process and then the
    display-server process, each once, by the process ids they were
    spawned with. *)
Theorem signal_while_waiting (st : State) (sg : Z) (frame : Frame) :
  result (main st) = Blocked ->
  In sg [SIGINT; SIGHUP; SIGTERM] ->
  exists r,
    deliver sg frame (final (main st)) = Some r /\
    result r = Returned tt /\
    final r = final (main st) /\
    List.filter is_kill (events r) =
      [ Kill (child_pid (world st) agent_argv) SIGTERM;
        Kill (child_pid (world st) vncserver_argv) SIGTERM ].
Proof.
  rewrite main_run. cbn [result final fst snd]. intros Hblocked Hsg.
  destruct (start_reaches_wait (initialised st)) as (Hm & Hh & _).
  { intros e He. rewrite Hblocked in He. discriminate He. }
  exists (stop sg frame (final (start (initialised st)))).
  split; [|split; [|split]].
  - unfold deliver. rewrite Hh. cbn [initialised set_handlers world handlers].
    destruct Hsg as [<- | [<- | [<- | []]]].
    + rewrite lookup_insert_ne by done. rewrite lookup_insert_ne by done.
      rewrite lookup_insert_eq. reflexivity.
    + rewrite lookup_insert_ne by done. rewrite lookup_insert_eq. reflexivity.
    + rewrite lookup_insert_eq. reflexivity.
  - rewrite (stop_passive sg frame _). reflexivity.
  - rewrite (stop_passive sg frame _). reflexivity.
  - rewrite stop_kill_events, Hm. reflexivity.
Qed.

Lemma signal_while_waiting_witness :
  result (main long_running) = Blocked /\
  exists r,
    deliver SIGTERM frame0 (final (main long_running)) = Some r /\
    result r = Returned tt /\
    final r = final (main long_running) /\
    List.filter is_kill (events r) = [Kill 101 SIGTERM; Kill 100 SIGTERM].
Proof.
  split; [reflexivity|].
  apply (signal_while_waiting long_running SIGTERM frame0); [reflexivity|].
  right. right. left. reflexivity.
Defined.

(** X6.  When the password encodes, everything up to the write succeeds
    and [os.chmod] is refused, [start_vnc] raises that error after the output of
    [vncpasswd] has been written: the credential file is left with the
    mode it was opened with (0o666 less the umask for a new file, its old
    mode otherwise), no display server is spawned and the handle is as
    before. *)
Theorem start_vnc_chmod_refused (st : State) (password : string) (errno : Z) :
  environ (world st) !! "VNCPASS" = Some password ->
  utf8_valid (raw_bytes password) = true ->
  is_file (fs (world st) !! vnc_dir) = false ->
  is_dir (fs (world st) !! vnc_dir) || permits (world st) (Makedirs vnc_dir 755 true) = true ->
  is_dir (fs (world st) !! vnc_passwd) = false ->
  forallb (permits (world st))
    [ Run vncpasswd_argv (Some (raw_bytes password)) true;
      Open vnc_passwd;
      Fwrite vnc_passwd (child_result (world st) vncpasswd_argv (Some (raw_bytes password))).2 ]
    = true ->
  fault (world st) (Chmod vnc_passwd (oct [7; 0; 0])) = Some errno ->
  result (start_vnc st) = Raised (OSError errno) /\
  fs (world (final (start_vnc st))) !! vnc_passwd =
    Some (File match fs (world st) !! vnc_passwd with
               | Some (File md _) => md
               | _ => Z.land (oct [6; 6; 6]) (Z.lnot (umask (world st)))
               end
               (child_result (world st) vncpasswd_argv (Some (raw_bytes password))).2) /\
  vnc (manager (final (start_vnc st))) = vnc (manager st) /\
  List.filter is_spawn (events (start_vnc st)) = [].
Proof.
  intros Henv Hvalid Hnofile Hdir Hpasswd Hcalls Hchmod.
  cbn [forallb] in Hcalls.
  repeat (apply andb_prop in Hcalls; destruct Hcalls as [?%permits_fault Hcalls]).
  destruct st as [m w]. cbn [world manager] in *.
  unfold_start_vnc. vnc_step.
  destruct (fs w !! vnc_dir) as [[md|md c]|] eqn:Edir; [| discriminate |].
  2: apply permits_fault in Hdir; rewrite Hdir.
  all: vnc_step; rewrite Henv; cbn [app]; vnc_step; rewrite Hvalid; cbn [app];
    vnc_step; rewrite H; cbn [app]; vnc_step.
  all: destruct (fs w !! vnc_passwd) as [[pmd|pmd c]|] eqn:Epw; [discriminate| |].
  all: rewrite H0; vnc_step; rewrite H1; vnc_step; rewrite Hchmod.
  all: cbn [result final events fst snd set_fs world fs manager vnc app List.filter is_spawn].
  all: repeat (rewrite lookup_insert_eq || rewrite lookup_insert_ne by done).
  all: repeat split.
Qed.

Lemma start_vnc_chmod_refused_witness :
  fault (world chmod_refused) (Chmod vnc_passwd (oct [7; 0; 0])) = Some EACCES /\
  result (start_vnc chmod_refused) = Raised PermissionError /\
  fs (world (final (start_vnc chmod_refused))) !! vnc_passwd =
    Some (File (oct [6; 4; 4]) [Byte.x2a]).
Proof.
  split; [reflexivity|].
  destruct (start_vnc_chmod_refused chmod_refused "secret" EACCES)
    as (H1 & H2 & _); try reflexivity.
  split; [exact H1|exact H2].
Defined.

(** X7.  [start] spawns the agent only after the whole display-server
    sequence: whenever the agent is spawned, all the calls of [start_vnc]
    come first and the display-server handle is set. *)
Theorem agent_spawned_after_display (st : State) :
  In (Spawn agent_argv) (events (start st)) ->
  (Log INFO "Start vnc..." None :: start_vnc_sequence (world st) (vncpass (world st)))
    `prefix_of` events (start st) /\
  vnc (manager (final (start st))) =
    Some {| pid := child_pid (world st) vncserver_argv; args := vncserver_argv |}.
Proof.
  intros Hin.
  destruct (start_vnc_frame st) as (_ & _ & _ & _ & _ & _ & _ & _ & Hv).
  pose proof (start_vnc_events_prefix_any st) as Hpre.
  unfold start in *. rewrite bind_eta in *.
  destruct (result (start_vnc st)) as [[]|e|] eqn:Hres; [| |contradiction].
  - pose proof (start_vnc_returned_any st Hres) as Henv.
    destruct (start_vnc_returned st _ Henv Hres) as (Hev & _).
    cbn [events final fst snd]. split.
    + rewrite Hev. eexists. reflexivity.
    + rewrite start_agent_run.
      destruct (fault (world (final (start_vnc st))) (Spawn agent_argv)); exact Hv.
  - exfalso. cbn [events snd] in Hin. destruct Hpre as [k Hk].
    assert (Hin' : In (Spawn agent_argv)
              (Log INFO "Start vnc..." None ::
               start_vnc_sequence (world st) (vncpass (world st)))).
    { rewrite Hk. apply in_or_app. left. exact Hin. }
    cbn in Hin'.
    repeat (destruct Hin' as [Hin'|Hin']; [discriminate Hin'|]). exact Hin'.
Qed.

Lemma agent_spawned_after_display_witness :
  In (Spawn agent_argv) (events (start first_boot)) /\
  vnc (manager (final (start first_boot))) = Some display.
Proof.
  assert (H : In (Spawn agent_argv) (events (start first_boot))).
  { vm_compute. do 8 right. left. reflexivity. }
  split; [exact H|].
  apply (agent_spawned_after_display first_boot H).
Defined.

(** X11.  When the display server was started and the agent cannot be
    spawned, [start] raises that error without waiting and without
    tearing anything down: the display-server handle stays set and the
    agent handle is as before. *)
Theorem start_leaves_display_when_agent_fails (st : State) (errno : Z) :
  result (start_vnc st) = Returned tt ->
  fault (world st) (Spawn agent_argv) = Some errno ->
  result (start st) = Raised (OSError errno) /\
  agent (manager (final (start st))) = agent (manager st) /\
  vnc (manager (final (start st))) =
    Some {| pid := child_pid (world st) vncserver_argv; args := vncserver_argv |} /\
  List.filter is_teardown (events (start st)) = [] /\
  List.filter is_wait (events (start st)) = [].
Proof.
  intros Hres Hspawn.
  destruct (start_vnc_frame st) as (Ha & _ & _ & _ & Hf & _ & _ & _ & Hv).
  rewrite Hres in Hv.
  assert (Hfilter : forall f, List.filter f (start_events (world st) (vncpass (world st))) = [] ->
                              List.filter f (events (start st)) = []).
  { intros f. apply prefix_filter_nil. apply start_events_prefix. }
  split; [|split; [|split; [|split]]]; try (apply Hfilter; reflexivity).
  all: unfold start; rewrite bind_eta, Hres, start_agent_run, Hf, Hspawn.
  - reflexivity.
  - exact Ha.
  - exact Hv.
  - cbn [events snd]. rewrite List.filter_app.
    rewrite (prefix_filter_nil is_wait _ _ (start_vnc_events_prefix_any st) eq_refl).
    reflexivity.
Qed.

Lemma start_leaves_display_when_agent_fails_witness :
  result (start_vnc wine_missing) = Returned tt /\
  result (start wine_missing) = Raised FileNotFoundError /\
  manager (final (start wine_missing)) = {| agent := None; vnc := Some display |}.
Proof.
  split; [reflexivity|].
  destruct (start_leaves_display_when_agent_fails wine_missing ENOENT)
    as (H1 & H2 & H3 & _); try reflexivity.
  split; [exact H1|].
  destruct (manager (final (start wine_missing))) as [a v].
  cbn [agent vnc] in H2, H3. rewrite H2, H3. reflexivity.
Defined.

(** X12.  Without VNCPASS the directory is handled before the variable is
    looked up: [start] raises [FileExistsError] when the path is a
    regular file, the error of the refused creation when the machine
    refuses it, and [KeyError] otherwise, and in that last case a missing
    directory has been created and stays. *)
Theorem start_without_password_effects (st : State) :
  environ (world st) !! "VNCPASS" = None ->
  result (start st) =
    match fs (world st) !! vnc_dir with
    | Some (File _ _) => Raised FileExistsError
    | Some (Dir _) => Raised (KeyError "VNCPASS")
    | None =>
        match fault (world st) (Makedirs vnc_dir 755 true) with
        | Some errno => Raised (OSError errno)
        | None => Raised (KeyError "VNCPASS")
        end
    end /\
  fs (world (final (start st))) =
    match fs (world st) !! vnc_dir, fault (world st) (Makedirs vnc_dir 755 true) with
    | None, None => <[vnc_dir := Dir (mkdir_mode 755 (umask (world st)))]> (fs (world st))
    | _, _ => fs (world st)
    end.
Proof.
  intros Henv. destruct st as [m w]. cbn [manager world] in *.
  unfold start. rewrite bind_eta.
  unfold_start_vnc. vnc_step.
  destruct (fs w !! vnc_dir) as [[md|md c]|] eqn:Edir.
  - vnc_step. rewrite Henv. split; reflexivity.
  - split; reflexivity.
  - destruct (fault w (Makedirs vnc_dir 755 true)) as [errno|].
    + split; reflexivity.
    + vnc_step. rewrite Henv. split; reflexivity.
Qed.

Lemma start_without_password_effects_witness :
  environ (world no_password) !! "VNCPASS" = None /\
  result (start no_password) = Raised (KeyError "VNCPASS") /\
  fs (world (final (start no_password))) !! vnc_dir = Some (Dir (oct [1; 3; 4; 1])).
Proof.
  split; [reflexivity|].
  destruct (start_without_password_effects no_password) as (H1 & H2); [reflexivity|].
  split; [exact H1|]. rewrite H2. reflexivity.
Defined.

(** What [str.encode] accepts: ASCII and well-formed sequences; not a
    stray byte, an overlong form, an encoded surrogate or a truncated
    sequence. *)
Example utf8_valid_samples :
  utf8_valid (raw_bytes "secret") = true /\
  utf8_valid [Byte.xc3; Byte.xa9] = true /\
  utf8_valid [Byte.xe2; Byte.x82; Byte.xac] = true /\
  utf8_valid [Byte.xf0; Byte.x9f; Byte.x98; Byte.x80] = true /\
  utf8_valid [Byte.xff] = false /\
  utf8_valid [Byte.xc0; Byte.x80] = false /\
  utf8_valid [Byte.xed; Byte.xa0; Byte.x80] = false /\
  utf8_valid [Byte.xe2; Byte.x82] = false /\
  utf8_valid [Byte.xf4; Byte.x90; Byte.x80; Byte.x80] = false.
Proof. repeat split. Qed.

(** X13.  When VNCPASS holds bytes that are not valid UTF-8, [start_vnc]
    raises [UnicodeEncodeError] once the directory is ensured: the
    directory call is the only one attempted, [vncpasswd] is not run, no
    file is written, nothing is spawned and the handles are as before. *)
Theorem start_vnc_undecodable_password (st : State) (password : string) :
  environ (world st) !! "VNCPASS" = Some password ->
  utf8_valid (raw_bytes password) = false ->
  is_file (fs (world st) !! vnc_dir) = false ->
  is_dir (fs (world st) !! vnc_dir) || permits (world st) (Makedirs vnc_dir 755 true) = true ->
  result (start_vnc st) = Raised UnicodeEncodeError /\
  events (start_vnc st) = [Log INFO "Start vnc..." None; Makedirs vnc_dir 755 true] /\
  manager (final (start_vnc st)) = manager st /\
  fs (world (final (start_vnc st))) !! vnc_passwd = fs (world st) !! vnc_passwd.
Proof.
  intros Henv Hvalid Hnofile Hdir.
  destruct st as [m w]. cbn [world manager] in *.
  unfold_start_vnc. vnc_step.
  destruct (fs w !! vnc_dir) as [[md|md c]|] eqn:Edir; [| discriminate |].
  2: apply permits_fault in Hdir; rewrite Hdir.
  all: vnc_step; rewrite Henv; cbn [app]; vnc_step; rewrite Hvalid.
  all: cbn [result final events fst snd set_fs world fs manager app].
  all: repeat (rewrite lookup_insert_eq || rewrite lookup_insert_ne by done).
  all: repeat split.
Qed.

Lemma start_vnc_undecodable_password_witness :
  utf8_valid [Byte.xff] = false /\
  result (start_vnc undecodable) = Raised UnicodeEncodeError /\
  events (start_vnc undecodable) =
    [Log INFO "Start vnc..." None; Makedirs vnc_dir 755 true].
Proof.
  split; [reflexivity|].
  destruct (start_vnc_undecodable_password undecodable
              (String.string_of_list_byte [Byte.xff]))
    as (H1 & H2 & _); try reflexivity.
  split; [exact H1|exact H2].
Defined.
